(** * ProteinCartography: the identifier-resolution orchestrator

    A shallow embedding of [ProteinCartography/map_refseqids.py]: the two
    request back ends [map_refseqids_bioservices] and [map_refseqids_rest],
    the entry point [main] on the parsed arguments, the Python and pandas
    operations they are written with, and the properties of the
    orchestrator that follow from the code.

    Conventions of the embedding.
    - A Python [str] is a [string]; a character stands for the code point
      with the same number (code points below 256).
    - A Python [int] is a [Z]; [len] returns a [Z].
    - The file system is a finite map from paths to the text of the file;
      a newline is written to a file as it is (POSIX).
    - The decoded JSON of a mapping result is built from strings and
      objects ([Pandas.json]).
    - The mapping service is an oracle ([Service]); every HTTP request the
      code issues, every call of bioservices and every [sleep] is appended
      to a trace.
    - An exception or [sys.exit] ends the run with [Raise]; the world it
      leaves is the world at that point.
    - The constants [REQUESTS_TRIES], [REQUESTS_LIMIT] and
      [REQUESTS_SLEEP_TIME] of the module are a parameter ([Constants])
      with the values of the module in [module_constants]. *)

From stdpp Require Import gmap strings list pretty.
From Stdlib Require Import ZArith Ascii.

Open Scope string_scope.
Open Scope list_scope.
Open Scope Z_scope.

(** ** Python built-ins used by the module *)

Module Py.

Definition LF : ascii := "010"%char.
Definition CR : ascii := "013"%char.

(** The text ["\n"]. *)
Definition nl : string := String LF "".

(** The line boundaries of [str.splitlines] among the code points below
    256: \n, \v, \f, \r, \x1c, \x1d, \x1e and \x85 (the pair \r\n is one
    boundary, see [splitlines_from]). *)
Definition line_boundaries : list ascii :=
  ["010"; "011"; "012"; "013"; "028"; "029"; "030"; "133"]%char.

Definition is_linebreak (c : ascii) : bool :=
  existsb (Ascii.eqb c) line_boundaries.

(** [str.splitlines()], with [cur] the part of the current line already
    scanned. A line is closed at every boundary; what follows the last
    boundary is a line only when it is not empty. *)
Fixpoint splitlines_from (cur s : string) : list string :=
  match s with
  | EmptyString => if String.eqb cur "" then [] else [cur]
  | String c rest =>
      if is_linebreak c then
        cur ::
          (if Ascii.eqb c CR then
             match rest with
             | String c' rest' =>
                 if Ascii.eqb c' LF then splitlines_from "" rest'
                 else splitlines_from "" rest
             | EmptyString => splitlines_from "" rest
             end
           else splitlines_from "" rest)
      else splitlines_from (cur +:+ String c "") rest
  end.

Definition splitlines (s : string) : list string := splitlines_from "" s.

(** Reading in text mode ([open(path, "r")], newline=None): \r\n and a
    lone \r arrive as \n. *)
Fixpoint universal_newlines (s : string) : string :=
  match s with
  | EmptyString => EmptyString
  | String c rest =>
      if Ascii.eqb c CR then
        String LF
          match rest with
          | String c' rest' =>
              if Ascii.eqb c' LF then universal_newlines rest'
              else universal_newlines rest
          | EmptyString => universal_newlines rest
          end
      else String c (universal_newlines rest)
  end.

(** [sep.join(l)] *)
Definition join (sep : string) (l : list string) : string :=
  String.concat sep l.

(** [len(l)] *)
Definition len {A} (l : list A) : Z := Z.of_nat (length l).

(** [l[0:stop]] for a non-negative [stop]. *)
Definition slice_to {A} (stop : Z) (l : list A) : list A :=
  take (Z.to_nat stop) l.

(** [list(set(l))]: the distinct elements of [l], in the iteration order
    of the set, which Python leaves unspecified; here the order of
    [elements]. *)
Definition list_set (l : list string) : list string :=
  elements (list_to_set l : gset string).

End Py.

(** ** Exceptions, and the outcome of a run *)

Inductive exn :=
| SystemExit (msg : string)
| KeyError (key : string)
| TypeError
| FileNotFoundError (path : string).

Inductive result (A : Type) :=
| Return (a : A)
| Raise (e : exn).
Arguments Return {A} a.
Arguments Raise {A} e.

(** ** The part of pandas the module uses *)

Module Pandas.

#[local] Set Warnings "-register-all".

(** A decoded JSON value of a mapping result: a string or a (nested)
    object. *)
Inductive json :=
| JStr (s : string)
| JObj (fields : list (string * json)).

(** A decoded JSON object ([dict]): the first binding of a key counts. *)
Definition record := list (string * json).

Fixpoint get (key : string) (r : record) : option json :=
  match r with
  | [] => None
  | (k, v) :: r' => if String.eqb key k then Some v else get key r'
  end.

(** [key in r] *)
Definition has_key (key : string) (r : record) : bool :=
  existsb (String.eqb key) (map fst r).

(** A frame is the list of its rows in index order; a row binds column
    labels to values, and a column a row does not bind holds NaN there.
    The columns of a frame are the labels bound by some row, so a frame
    without rows has no columns. *)
Definition DataFrame := list record.

(** [pd.DataFrame()] *)
Definition empty : DataFrame := [].

(** [pd.DataFrame(records)] for a list of dicts: one row per dict. *)
Definition of_records (records : list record) : DataFrame := records.

(** The flattening of [pd.json_normalize]: a nested object spreads into
    the columns [key.subkey]. *)
Fixpoint flatten (key : string) (v : json) : record :=
  match v with
  | JStr s => [(key, JStr s)]
  | JObj fields =>
      (fix go (fs : list (string * json)) : record :=
         match fs with
         | [] => []
         | (k, v') :: fs' => flatten (key +:+ "." +:+ k) v' ++ go fs'
         end) fields
  end.

Definition normalize_record (r : record) : record :=
  flat_map (λ kv, flatten (fst kv) (snd kv)) r.

(** [pd.json_normalize(records)] *)
Definition json_normalize (records : list record) : DataFrame :=
  map normalize_record records.

(** [len(df)] *)
Definition len (df : DataFrame) : Z := Py.len df.

(** [pd.concat([df1, df2], axis=0)] *)
Definition concat (df1 df2 : DataFrame) : DataFrame := df1 ++ df2.

Definition has_column (c : string) (df : DataFrame) : bool :=
  existsb (has_key c) df.

(** A cell: [None] is NaN. *)
Definition cell := option json.

(** [df[c]] *)
Definition getitem (df : DataFrame) (c : string) : result (list cell) :=
  if has_column c df then Return (map (get c) df) else Raise (KeyError c).

(** What [Series.unique] hashes: a string or NaN; a dict is unhashable. *)
Definition hashable (x : cell) : option (option string) :=
  match x with
  | None => Some None
  | Some (JStr s) => Some (Some s)
  | Some (JObj _) => None
  end.

(** The scan of [Series.unique]: a value is kept when it was not seen
    before. *)
Fixpoint unique_from {A} `{EqDecision A} (seen l : list A) : list A :=
  match l with
  | [] => []
  | x :: l' =>
      if bool_decide (x ∈ seen) then unique_from seen l'
      else x :: unique_from (x :: seen) l'
  end.

(** [s.unique()] *)
Definition unique (s : list cell) : result (list (option string)) :=
  match mapM hashable s with
  | Some vs => Return (unique_from [] vs)
  | None => Raise TypeError
  end.

End Pandas.

(** ** The world of a run: files, the mapping service, the trace *)

Inductive method := GET | POST.

Record request := {
  req_method : method;
  req_url : string;
  req_data : list (string * string);
  req_headers : list (string * string) }.

Inductive event :=
| Request (r : request)
| Mapping (fr to query : string)
| Sleep (seconds : Z).

Record World := {
  files : gmap string string;
  trace : list event }.

(** The mapping service, as the module sees it. [run_answer url data] is
    the decoded answer to the POST of the form [data] to [url] (a JSON
    object with string values); [status_answer url n] is the decoded
    answer to the GET of the status address [url] that comes after [n]
    earlier requests to that address; [stream_answer url] is what the
    decoded answer to the GET of the stream address [url] holds under
    ["results"], if it has that key; [mapping_answer fr to query] is the
    same for the answer of bioservices' [UniProt.mapping]. *)
Record Service := {
  run_answer : string → list (string * string) → list (string * string);
  status_answer : string → nat → Pandas.record;
  stream_answer : string → option (list Pandas.record);
  mapping_answer :
    string → string → string → option (list Pandas.record) }.

(** A computation of the module: it reads and changes the world and ends
    with a value or an exception. *)
Definition M (A : Type) : Type := World → result A * World.

#[global] Instance M_ret : MRet M := λ A a w, (Return a, w).

#[global] Instance M_bind : MBind M := λ A B f m w,
  match m w with
  | (Return a, w') => f a w'
  | (Raise e, w') => (Raise e, w')
  end.

Definition raise {A} (e : exn) : M A := λ w, (Raise e, w).

Definition lift {A} (r : result A) : M A := λ w, (r, w).

Definition log (e : event) : M unit :=
  λ w, (Return (), {| files := files w; trace := trace w ++ [e] |}).

(** [open(path, "r")] followed by [f.read()] *)
Definition read_text (path : string) : M string := λ w,
  match files w !! path with
  | Some text => (Return (Py.universal_newlines text), w)
  | None => (Raise (FileNotFoundError path), w)
  end.

(** [open(path, "w+")]: the file is created or emptied. *)
Definition open_truncate (path : string) : M unit :=
  λ w, (Return (), {| files := <[path := ""]> (files w); trace := trace w |}).

(** [f.write(text)] on the file opened at [path] *)
Definition append_text (path text : string) : M unit := λ w,
  (Return (),
   {| files := <[path := default "" (files w !! path) +:+ text]> (files w);
      trace := trace w |}).

(** [sleep(seconds)] *)
Definition sleep (seconds : Z) : M unit := log (Sleep seconds).

(** [sys.exit(msg)] *)
Definition sys_exit {A} (msg : string) : M A := raise (SystemExit msg).

(** How many requests to [url] the trace holds. *)
Definition requests_to (url : string) (t : list event) : nat :=
  length (List.filter (λ e, match e with
                            | Request r => String.eqb (req_url r) url
                            | _ => false
                            end) t).

(** [d[key]] for a JSON object with string values *)
Fixpoint subscript (d : list (string * string)) (key : string)
  : result string :=
  match d with
  | [] => Raise (KeyError key)
  | (k, v) :: d' => if String.eqb key k then Return v else subscript d' key
  end.

(** [results["results"]] *)
Definition results_of {A} (results : option A) : result A :=
  match results with
  | Some records => Return records
  | None => Raise (KeyError "results")
  end.

(** ** The module [map_refseqids] *)

Definition DEFAULT_DBS : list string :=
  ["EMBL-GenBank-DDBJ_CDS"; "RefSeq_Protein"].

Definition UNIPROT_IDMAPPING_API : string :=
  "https://rest.uniprot.org/idmapping".

(** The module-level request constants. *)
Record Constants := {
  REQUESTS_TRIES : Z;
  REQUESTS_LIMIT : Z;
  REQUESTS_SLEEP_TIME : Z }.

(** Their values in the module. *)
Definition module_constants : Constants :=
  {| REQUESTS_TRIES := 0; REQUESTS_LIMIT := 10; REQUESTS_SLEEP_TIME := 30 |}.

Definition REQUESTS_HEADER : list (string * string) :=
  [("User-Agent",
    "ProteinCartography/0.4 (Arcadia Science) python-requests/2.0.1")].

Section map_refseqids.

Context (K : Constants) (svc : Service).

(** [post(url, data, headers=headers).json()] *)
Definition post (url : string) (data headers : list (string * string))
  : M (list (string * string)) :=
  _ ← log (Request {| req_method := POST; req_url := url;
                      req_data := data; req_headers := headers |});
  mret (run_answer svc url data).

(** [get(url, headers=headers).json()] on a status address *)
Definition get_status (url : string) (headers : list (string * string))
  : M Pandas.record := λ w,
  (_ ← log (Request {| req_method := GET; req_url := url;
                       req_data := []; req_headers := headers |});
   mret (status_answer svc url (requests_to url (trace w)))) w.

(** [get(url, headers=headers).json()] on a stream address *)
Definition get_stream (url : string) (headers : list (string * string))
  : M (option (list Pandas.record)) :=
  _ ← log (Request {| req_method := GET; req_url := url;
                      req_data := []; req_headers := headers |});
  mret (stream_answer svc url).

(** [u.mapping(fr, to, query=query)] *)
Definition u_mapping (fr to query : string) : M (option (list Pandas.record)) :=
  _ ← log (Mapping fr to query);
  mret (mapping_answer svc fr to query).

(** [f.writelines(hit + "\n" for hit in hits)]: NaN + str is a
    TypeError. *)
Fixpoint writelines (path : string) (hits : list (option string)) : M unit :=
  match hits with
  | [] => mret ()
  | Some hit :: hits' =>
      _ ← append_text path (hit +:+ Py.nl);
      writelines path hits'
  | None :: _ => raise TypeError
  end.

(** [with open(output_file, "w+") as f: f.writelines(...)] *)
Definition save_hits (output_file : string) (hits : list (option string))
  : M unit :=
  _ ← open_truncate output_file;
  writelines output_file hits.

(** The end of both back ends: the unique values of [column] are written
    to [output_file], one per line. *)
Definition write_unique_hits (column output_file : string)
    (dummy_df : Pandas.DataFrame) : M unit :=
  series ← lift (Pandas.getitem dummy_df column);
  hits ← lift (Pandas.unique series);
  save_hits output_file hits.

(** [with open(input_file, "r") as f: f.read().splitlines()] *)
Definition read_lines (input_file : string) : M (list string) :=
  text ← read_text input_file;
  mret (Py.splitlines text).

(** The [for i, db in enumerate(query_dbs)] loop of
    [map_refseqids_bioservices], from index [i] on. *)
Fixpoint bioservices_for (ids : list string) (i : Z) (query_dbs : list string)
    (dummy_df : Pandas.DataFrame) : M Pandas.DataFrame :=
  match query_dbs with
  | [] => mret dummy_df
  | db :: query_dbs' =>
      results ← u_mapping db "UniProtKB" (Py.join "," ids);
      records ← lift (results_of results);
      let results_df := Pandas.json_normalize records in
      if Pandas.len results_df =? 0 then
        bioservices_for ids (i + 1) query_dbs' dummy_df
      else if i =? 0 then
        bioservices_for ids (i + 1) query_dbs' results_df
      else
        bioservices_for ids (i + 1) query_dbs'
          (Pandas.concat dummy_df results_df)
  end.

Definition map_refseqids_bioservices (input_file output_file : string)
    (query_dbs : list string) (return_full : bool)
  : M (option Pandas.DataFrame) :=
  ids ← read_lines input_file;
  let ids := if Py.len ids >? 100000 then Py.slice_to 100000 ids else ids in
  dummy_df ← bioservices_for ids 0 query_dbs Pandas.empty;
  _ ← write_unique_hits "to.primaryAccession" output_file dummy_df;
  mret (if return_full then Some dummy_df else None).

(** The polling loop [while repeat and tries < limit] of
    [map_refseqids_rest]. [tries] grows by one in every round, so the
    loop is written by recursion on [budget], the number of rounds that
    [tries < limit] still allows: it is entered with
    [budget = limit - tries] (see [while_poll]). *)
Fixpoint poll (budget : nat) (sleep_time : Z) (ticket : list (string * string))
    (repeat : bool) (tries : Z) : M (bool * Z) :=
  match budget with
  | O => mret (repeat, tries)
  | S budget' =>
      if repeat then
        job ← lift (subscript ticket "jobId");
        status ← get_status (UNIPROT_IDMAPPING_API +:+ "/status/" +:+ job)
                   REQUESTS_HEADER;
        _ ← sleep sleep_time;
        poll budget' sleep_time ticket
          (negb (Pandas.has_key "results" status)) (tries + 1)
      else mret (repeat, tries)
  end.

Definition while_poll (limit sleep_time : Z) (ticket : list (string * string))
    (repeat : bool) (tries : Z) : M (bool * Z) :=
  poll (Z.to_nat (limit - tries)) sleep_time ticket repeat tries.

(** The [for i, db in enumerate(query_dbs)] loop of [map_refseqids_rest],
    from index [i] on. *)
Fixpoint rest_for (input_string : string) (i : Z) (query_dbs : list string)
    (dummy_df : Pandas.DataFrame) : M Pandas.DataFrame :=
  match query_dbs with
  | [] => mret dummy_df
  | db :: query_dbs' =>
      ticket ← post (UNIPROT_IDMAPPING_API +:+ "/run")
                 [("ids", input_string); ("from", db); ("to", "UniProtKB")]
                 REQUESTS_HEADER;
      let repeat := true in
      let tries := REQUESTS_TRIES K in
      let limit := REQUESTS_LIMIT K in
      let sleep_time := REQUESTS_SLEEP_TIME K in
      '(repeat, tries) ← while_poll limit sleep_time ticket repeat tries;
      if tries =? 10 then
        sys_exit ("The ticket failed to complete after "
                  +:+ pretty (tries * sleep_time) +:+ " seconds.")
      else
        job ← lift (subscript ticket "jobId");
        results ← get_stream (UNIPROT_IDMAPPING_API +:+ "/stream/" +:+ job)
                    [];
        records ← lift (results_of results);
        let results_df := Pandas.of_records records in
        if Pandas.len results_df =? 0 then
          rest_for input_string (i + 1) query_dbs' dummy_df
        else if i =? 0 then
          rest_for input_string (i + 1) query_dbs' results_df
        else
          rest_for input_string (i + 1) query_dbs'
            (Pandas.concat dummy_df results_df)
  end.

Definition map_refseqids_rest (input_file output_file : string)
    (query_dbs : list string) (return_full : bool)
  : M (option Pandas.DataFrame) :=
  input_lines ← read_lines input_file;
  let input_ids := Py.list_set input_lines in
  let input_string := Py.join "," input_ids in
  dummy_df ← rest_for input_string 0 query_dbs Pandas.empty;
  _ ← write_unique_hits "to" output_file dummy_df;
  mret (if return_full then Some dummy_df else None).

End map_refseqids.

(** ** Notions the properties are stated with *)

(** The text that holds the lines [l], each ended by a newline. *)
Fixpoint lines_text (l : list string) : string :=
  match l with
  | [] => ""
  | line :: l' => line +:+ Py.nl +:+ lines_text l'
  end.

(** No character of [s] is a line boundary of [str.splitlines]. *)
Fixpoint free_of_linebreaks (s : string) : bool :=
  match s with
  | EmptyString => true
  | String c rest => negb (Py.is_linebreak c) && free_of_linebreaks rest
  end.

(** Saving [hits] and reading the saved file line by line gives [hits]
    back, up to the order of the lines. *)
Definition reads_back (hits : list string) : Prop :=
  ∀ (output_file : string) (w : World),
    ∃ lines,
      fst (read_lines output_file
             (snd (save_hits output_file (Some <$> hits) w))) = Return lines
      ∧ lines ≡ₚ hits.

(** The elements of [l] at the positions where they occur for the first
    time, in the order of [l]. *)
Definition first_occurrences {A} `{EqDecision A} (l : list A) : list A :=
  omap (λ i, x ← l !! i;
             if bool_decide (x ∈ take i l) then None else Some x)
       (seq 0 (length l)).

(** The query set of [map_refseqids_rest] has no duplicates, no empty
    string, and as many identifiers as there are distinct non-empty input
    lines. *)
Definition normalized (input_lines input_ids : list string) : Prop :=
  NoDup input_ids
  ∧ ("" ∉ input_ids)
  ∧ (length input_ids
     = length (remove_dups (filter (λ line, line ≠ "") input_lines))).

(** The world [w] after the events [evs]. *)
Definition logged (w : World) (evs : list event) : World :=
  {| files := files w; trace := trace w ++ evs |}.

(** What one round of the merge makes of the table: the three branches of
    the loop body of both back ends. *)
Definition merged (i : Z) (dummy_df results_df : Pandas.DataFrame)
  : Pandas.DataFrame :=
  if Pandas.len results_df =? 0 then dummy_df
  else if i =? 0 then results_df
  else Pandas.concat dummy_df results_df.

(** The addresses and requests of [map_refseqids_rest]. *)
Definition run_url : string := UNIPROT_IDMAPPING_API +:+ "/run".
Definition status_url (job : string) : string :=
  UNIPROT_IDMAPPING_API +:+ "/status/" +:+ job.
Definition stream_url (job : string) : string :=
  UNIPROT_IDMAPPING_API +:+ "/stream/" +:+ job.

Definition run_form (input_string db : string) : list (string * string) :=
  [("ids", input_string); ("from", db); ("to", "UniProtKB")].

Definition run_request (input_string db : string) : event :=
  Request {| req_method := POST; req_url := run_url;
             req_data := run_form input_string db;
             req_headers := REQUESTS_HEADER |}.

Definition status_request (job : string) : event :=
  Request {| req_method := GET; req_url := status_url job;
             req_data := []; req_headers := REQUESTS_HEADER |}.

Definition stream_request (job : string) : event :=
  Request {| req_method := GET; req_url := stream_url job;
             req_data := []; req_headers := [] |}.

(** The events of [n] rounds of the polling loop. *)
Fixpoint poll_rounds (n : nat) (job : string) (sleep_time : Z) : list event :=
  match n with
  | O => []
  | S n' => status_request job :: Sleep sleep_time
            :: poll_rounds n' job sleep_time
  end.

(** How often [job] was polled before [w]. *)
Definition polls_before (job : string) (w : World) : nat :=
  requests_to (status_url job) (trace w).

(** The number of polls that the constants allow for one job. *)
Definition attempt_budget (K : Constants) : nat :=
  Z.to_nat (REQUESTS_LIMIT K - REQUESTS_TRIES K).

(** The answer to the poll of [job] that comes after [n] earlier polls
    holds the ready signal. *)
Definition ready_at (svc : Service) (job : string) (n : nat) : bool :=
  Pandas.has_key "results" (status_answer svc (status_url job) n).

(** The rows that the stream of the job submitted for [db] holds: the
    mapping result [map_refseqids_rest] receives for [db]. *)
Definition mapping_result (svc : Service) (input_string db : string)
  : list Pandas.record :=
  match subscript (run_answer svc run_url (run_form input_string db))
          "jobId" with
  | Return job => default [] (stream_answer svc (stream_url job))
  | Raise _ => []
  end.

(** The sum of a list of integers. *)
Definition sum_Z (l : list Z) : Z := foldr Z.add 0 l.

(** The cells of a column that holds the strings [column]. *)
Definition string_cells (column : list string) : list Pandas.cell :=
  (λ s, Some (Pandas.JStr s)) <$> column.

(** A mapping pair in the shape of the REST stream: both ends are strings. *)
Definition rest_pair (from to : string) : Pandas.record :=
  [("from", Pandas.JStr from); ("to", Pandas.JStr to)].

(** A mapping pair in the shape of bioservices: the target is an entry
    that holds the accession under ["primaryAccession"]. *)
Definition bioservices_pair (from to : string) : Pandas.record :=
  [("from", Pandas.JStr from);
   ("to", Pandas.JObj [("primaryAccession", Pandas.JStr to)])].

(** ** Scenarios *)

(** A mapping service for the scenarios: the job submitted for database
    [db] is ["job-" + db]; a poll holds the ready signal when [ready] says
    so for the number of earlier polls; the stream at [url] holds
    [rows url]; bioservices' [mapping] from [db] holds [entries db]. *)
Definition scenario_service (ready : nat → bool)
    (rows entries : string → list Pandas.record) : Service :=
  {| run_answer := λ url data,
       match subscript data "from" with
       | Return db => [("jobId", "job-" +:+ db)]
       | Raise _ => []
       end;
     status_answer := λ url n,
       if ready n then [("results", Pandas.JObj [])]
       else [("jobStatus", Pandas.JStr "RUNNING")];
     stream_answer := λ url, Some (rows url);
     mapping_answer := λ fr to query, Some (entries fr) |}.

(** The input file of the scenario of the specification. *)
Definition scenario_lines : list string := ["P12345"; "P12345"; "Q9Y6K9"].

Definition scenario_world : World :=
  {| files := {[ "in.txt" := lines_text scenario_lines ]}; trace := [] |}.

(** The first database maps both identifiers, every other one nothing. *)
Definition scenario_rows (url : string) : list Pandas.record :=
  if String.eqb url (stream_url "job-db1")
  then [rest_pair "P12345" "A0A000"; rest_pair "Q9Y6K9" "A0A001"]
  else [].

Definition scenario_entries (db : string) : list Pandas.record :=
  if String.eqb db "db1"
  then [bioservices_pair "P12345" "A0A000"; bioservices_pair "Q9Y6K9" "A0A001"]
  else [].

Definition always : nat → bool := λ _, true.
Definition never : nat → bool := λ _, false.

(** The first ready signal comes with the tenth poll. *)
Definition at_tenth_poll : nat → bool := λ n, (9 <=? n)%nat.

(** The module constants with an attempt budget of 3. *)
Definition budget_three : Constants :=
  {| REQUESTS_TRIES := 0; REQUESTS_LIMIT := 3; REQUESTS_SLEEP_TIME := 30 |}.

(** No database maps anything. *)
Definition no_rows : string → list Pandas.record := λ _, [].

(** ** A large input file, and a service that maps every identifier *)

(** The identifier of number [p]: its binary digits, the lowest first. *)
Fixpoint digits (p : positive) : string :=
  match p with
  | xH => "1"
  | xO p' => String "0" (digits p')
  | xI p' => String "1" (digits p')
  end.

Definition identifier (n : nat) : string := digits (Pos.of_succ_nat n).

(** The identifiers of the numbers [0] to [n - 1], in this order. *)
Definition identifiers (n : nat) : list string := identifier <$> seq 0 n.

(** An input of 100,001 distinct lines. *)
Definition large_input : list string := identifiers (Z.to_nat 100001).

Definition large_world : World :=
  {| files := {[ "in.txt" := lines_text large_input ]}; trace := [] |}.

(** [s.split(sep)] for a one-character separator, with [cur] the part of
    the current field already scanned. *)
Fixpoint split_from (sep : ascii) (cur s : string) : list string :=
  match s with
  | EmptyString => [cur]
  | String c rest =>
      if Ascii.eqb c sep then cur :: split_from sep "" rest
      else split_from sep (cur +:+ String c "") rest
  end.

(** The identifiers of a comma-joined query. *)
Definition split_commas (s : string) : list string := split_from ","%char "" s.

(** No character of [s] is a comma. *)
Fixpoint free_of_commas (s : string) : bool :=
  match s with
  | EmptyString => true
  | String c rest => negb (Ascii.eqb c ","%char) && free_of_commas rest
  end.

(** [s[n:]] *)
Fixpoint string_drop (n : nat) (s : string) : string :=
  match n, s with
  | O, _ => s
  | S n', String _ rest => string_drop n' rest
  | S _, EmptyString => EmptyString
  end.

(** A mapping service under which every submitted identifier is its own
    accession, in every database: the job of a query is named by the
    query, is ready at once, and its stream holds one pair per submitted
    identifier; bioservices' [mapping] holds the same pairs in its own
    shape. *)
Definition identity_service : Service :=
  {| run_answer := λ url data,
       match subscript data "ids" with
       | Return ids => [("jobId", ids)]
       | Raise _ => []
       end;
     status_answer := λ url n, [("results", Pandas.JObj [])];
     stream_answer := λ url,
       Some ((λ id, rest_pair id id)
               <$> split_commas
                     (string_drop (String.length (stream_url "")) url));
     mapping_answer := λ fr to query,
       Some ((λ id, bioservices_pair id id) <$> split_commas query) |}.

(** ** Notions for whole runs *)

(** Every event that the computation [m] adds to the trace satisfies [P],
    and [m] takes nothing from the trace. *)
Definition emits {A} (P : event → Prop) (m : M A) : Prop :=
  ∀ w, ∃ evs, trace (snd (m w)) = trace w ++ evs ∧ Forall P evs.

(** What holds of the events of [map_refseqids_rest]: the submission and
    the polls carry the user-agent header of the module, the request for
    the results carries no header. *)
Definition rest_event (e : event) : Prop :=
  match e with
  | Request r =>
      (req_method r = POST ∧ req_url r = run_url
       ∧ req_headers r = REQUESTS_HEADER)
      ∨ (req_method r = GET ∧ (∃ job, req_url r = status_url job)
         ∧ req_headers r = REQUESTS_HEADER)
      ∨ (req_method r = GET ∧ (∃ job, req_url r = stream_url job)
         ∧ req_headers r = [])
  | Mapping _ _ _ => False
  | Sleep _ => True
  end.

(** Mapping pairs in the two shapes, and the flat rows that
    [pd.json_normalize] makes of the shape of bioservices. *)
Definition rest_rows (pairs : list (string * string)) : list Pandas.record :=
  (λ p, rest_pair (fst p) (snd p)) <$> pairs.

Definition bioservices_rows (pairs : list (string * string))
  : list Pandas.record :=
  (λ p, bioservices_pair (fst p) (snd p)) <$> pairs.

Definition flat_rows (pairs : list (string * string)) : list Pandas.record :=
  (λ p, [("from", Pandas.JStr (fst p));
         ("to.primaryAccession", Pandas.JStr (snd p))]) <$> pairs.

(** The namespace that [parse_args] returns: the values of [--input],
    [--output], [--databases] and [--service]. *)
Record Namespace := {
  input : string;
  output : string;
  databases : list string;
  service : string }.

(** [main], after [args = parse_args()]. *)
Definition main (K : Constants) (svc : Service) (args : Namespace) : M unit :=
  let input_file := input args in
  let output_file := output args in
  let query_dbs := databases args in
  let service := service args in
  if String.eqb service "bioservices" then
    _ ← map_refseqids_bioservices svc input_file output_file query_dbs false;
    mret ()
  else
    _ ← map_refseqids_rest K svc input_file output_file query_dbs false;
    mret ().

(** The job submitted for [db] is ready from some poll on, no later than
    from its ninth, and its stream holds the pairs of [db]. *)
Definition rest_serves (svc : Service)
    (pairs : string → list (string * string)) (input_string db : string)
  : Prop :=
  ∃ (job : string) (k0 : nat),
    subscript (run_answer svc run_url (run_form input_string db)) "jobId"
    = Return job
    ∧ (k0 < 9)%nat
    ∧ (∀ n, ready_at svc job n = (k0 <=? n)%nat)
    ∧ stream_answer svc (stream_url job) = Some (rest_rows (pairs db)).

(** The mapping of [ids] from [db] holds the pairs of [db]. *)
Definition bioservices_serves (svc : Service)
    (pairs : string → list (string * string)) (ids : list string)
    (db : string) : Prop :=
  mapping_answer svc db "UniProtKB" (Py.join "," ids)
  = Some (bioservices_rows (pairs db)).


(** ** Notions for the behaviour of whole runs *)

(** The computation [m] leaves every file as it is. *)
Definition keeps_files {A} (m : M A) : Prop :=
  ∀ w, files (snd (m w)) = files w.


(** The computation [m] never ends with [sys.exit]. *)
Definition never_exits {A} (m : M A) : Prop :=
  ∀ w msg, fst (m w) ≠ Raise (SystemExit msg).

(** The seconds slept in the events [evs]. *)
Fixpoint slept (evs : list event) : Z :=
  match evs with
  | [] => 0
  | Sleep seconds :: evs' => seconds + slept evs'
  | _ :: evs' => slept evs'
  end.

(** The forms posted in the events [evs], in their order. *)
Fixpoint submissions (evs : list event) : list (list (string * string)) :=
  match evs with
  | [] => []
  | Request r :: evs' =>
      match req_method r with
      | POST => req_data r :: submissions evs'
      | GET => submissions evs'
      end
  | _ :: evs' => submissions evs'
  end.

(** The event is a call of bioservices. *)
Definition mapping_event (e : event) : Prop :=
  match e with
  | Mapping _ _ _ => True
  | _ => False
  end.

(** The text that holds the lines [l], each ended by [ending]. *)
Fixpoint text_with (ending : string) (l : list string) : string :=
  match l with
  | [] => ""
  | line :: l' => line +:+ ending +:+ text_with ending l'
  end.

(** The text ["\r\n"]. *)
Definition crlf : string := String Py.CR Py.nl.

(** A mapping service whose jobs differ: the job of database [db] is
    ["job-" + db], the poll of the status address [url] after [n] others
    holds the ready signal when [ready url n] says so, and the stream at
    [url] holds [rows url]. *)
Definition job_service (ready : string → nat → bool)
    (rows : string → list Pandas.record) : Service :=
  {| run_answer := λ url data,
       match subscript data "from" with
       | Return db => [("jobId", "job-" +:+ db)]
       | Raise _ => []
       end;
     status_answer := λ url n,
       if ready url n then [("results", Pandas.JObj [])]
       else [("jobStatus", Pandas.JStr "RUNNING")];
     stream_answer := λ url, Some (rows url);
     mapping_answer := λ fr to query, None |}.

(** Only the job of the first database gets ready. *)
Definition first_job_only (url : string) (n : nat) : bool :=
  String.eqb url (status_url "job-db1").

(** A mapping service that answers every submission with [ticket], is
    ready at once, and answers every request for results, and every call
    of bioservices, with [results]. *)
Definition fixed_service (ticket : list (string * string))
    (results : option (list Pandas.record)) : Service :=
  {| run_answer := λ url data, ticket;
     status_answer := λ url n, [("results", Pandas.JObj [])];
     stream_answer := λ url, results;
     mapping_answer := λ fr to query, results |}.

(** Every run of [m] adds events to the trace, takes none from it, and
    sleeps at most [bound] seconds in them. *)
Definition waits_at_most {A} (bound : Z) (m : M A) : Prop :=
  ∀ w, ∃ evs, trace (snd (m w)) = trace w ++ evs ∧ 0 ≤ slept evs ≤ bound.

(** Every run of [m] posts the forms [forms] in their order, or, when it
    ends with an exception, the first of them. *)
Definition submits {A} (forms : list (list (string * string))) (m : M A)
  : Prop :=
  ∀ w, ∃ evs n,
    trace (snd (m w)) = trace w ++ evs
    ∧ submissions evs = take n forms
    ∧ ((∃ a, fst (m w) = Return a) → submissions evs = forms).




Set Warnings "-clear-no-such-hyp".
(** * Properties *)

(** ** The built-ins on small inputs *)

Example splitlines_mixed :
  Py.splitlines ("a" +:+ String Py.CR Py.nl +:+ "b" +:+ Py.nl +:+ Py.nl +:+ "c")
  = ["a"; "b"; ""; "c"].
Proof. reflexivity. Qed.

Example splitlines_last_newline : Py.splitlines ("a" +:+ Py.nl) = ["a"].
Proof. reflexivity. Qed.

Example splitlines_newline : Py.splitlines Py.nl = [""].
Proof. reflexivity. Qed.

Example splitlines_empty : Py.splitlines "" = [].
Proof. reflexivity. Qed.

Example splitlines_returns :
  Py.splitlines (String Py.CR (String Py.CR Py.nl)) = [""; ""].
Proof. reflexivity. Qed.

Example splitlines_boundaries :
  Py.splitlines
    ("a" +:+ String "011" ("b" +:+ String "012" ("c" +:+ String "028"
     ("d" +:+ String "029" ("e" +:+ String "030" ("f" +:+ String "133" "g"))))))
  = ["a"; "b"; "c"; "d"; "e"; "f"; "g"].
Proof. reflexivity. Qed.

Example universal_newlines_mixed :
  Py.universal_newlines
    ("a" +:+ String Py.CR Py.nl +:+ "b" +:+ String Py.CR "c" +:+ Py.nl)
  = "a" +:+ Py.nl +:+ "b" +:+ Py.nl +:+ "c" +:+ Py.nl.
Proof. reflexivity. Qed.

Example join_ids : Py.join "," ["a"; "b"; "c"] = "a,b,c".
Proof. reflexivity. Qed.

Example split_commas_fields : split_commas "a,b,,c" = ["a"; "b"; ""; "c"].
Proof. reflexivity. Qed.

Example json_normalize_entry :
  Pandas.json_normalize [bioservices_pair "P12345" "A0A000"]
  = [[("from", Pandas.JStr "P12345");
      ("to.primaryAccession", Pandas.JStr "A0A000")]].
Proof. reflexivity. Qed.

Example getitem_empty :
  Pandas.getitem Pandas.empty "to" = Raise (KeyError "to").
Proof. reflexivity. Qed.

Example unique_order :
  Pandas.unique (string_cells ["B"; "A"; "B"; "C"; "A"])
  = Return [Some "B"; Some "A"; Some "C"].
Proof. reflexivity. Qed.

Example unique_of_entries :
  Pandas.unique
    [Some (Pandas.JObj [("primaryAccession", Pandas.JStr "A0A000")])]
  = Raise TypeError.
Proof. reflexivity. Qed.

(** ** Strings and lines *)

Lemma string_app_cons (c : ascii) (s1 s2 : string) :
  String c s1 +:+ s2 = String c (s1 +:+ s2).
Proof. reflexivity. Qed.

Lemma string_app_nil_l (s : string) : "" +:+ s = s.
Proof. reflexivity. Qed.

Lemma string_app_assoc (s1 s2 s3 : string) :
  (s1 +:+ s2) +:+ s3 = s1 +:+ (s2 +:+ s3).
Proof.
  induction s1 as [|c s1 IH]; [done|].
  by rewrite !string_app_cons, IH.
Qed.

Lemma string_app_nil_r (s : string) : s +:+ "" = s.
Proof.
  induction s as [|c s IH]; [done|]. by rewrite string_app_cons, IH.
Qed.

Lemma string_app_snoc (s1 s2 : string) (c : ascii) :
  (s1 +:+ String c "") +:+ s2 = s1 +:+ String c s2.
Proof. by rewrite string_app_assoc. Qed.

Lemma is_linebreak_LF : Py.is_linebreak Py.LF = true.
Proof. reflexivity. Qed.

Lemma is_linebreak_CR c :
  Py.is_linebreak c = false → Ascii.eqb c Py.CR = false.
Proof.
  intros H. destruct (Ascii.eqb_spec c Py.CR) as [->|]; [|done].
  by vm_compute in H.
Qed.

(** A line without boundaries, closed by a newline, is split off whole. *)
Lemma splitlines_from_line (line cur rest : string) :
  free_of_linebreaks line = true →
  Py.splitlines_from cur (line +:+ Py.nl +:+ rest)
  = (cur +:+ line) :: Py.splitlines_from "" rest.
Proof.
  revert cur. induction line as [|c line IH]; intros cur Hfree.
  - rewrite string_app_nil_r, string_app_nil_l. done.
  - simpl in Hfree. apply andb_true_iff in Hfree as [Hc Hline].
    apply negb_true_iff in Hc. rewrite string_app_cons. simpl. rewrite Hc.
    rewrite IH by done. by rewrite string_app_snoc.
Qed.

Lemma splitlines_lines_text (l : list string) :
  Forall (λ line, free_of_linebreaks line = true) l →
  Py.splitlines (lines_text l) = l.
Proof.
  unfold Py.splitlines. induction 1 as [|line l Hline _ IH]; [done|].
  simpl. by rewrite splitlines_from_line, IH.
Qed.

Lemma universal_newlines_free (s : string) :
  free_of_linebreaks s = true → Py.universal_newlines s = s.
Proof.
  induction s as [|c s IH]; [done|]. simpl. intros [Hc Hs]%andb_true_iff.
  apply negb_true_iff, is_linebreak_CR in Hc. rewrite Hc. by rewrite IH.
Qed.

(** Text-mode reading changes nothing for [splitlines], which splits at
    every kind of newline alike. *)
Lemma splitlines_from_universal_newlines (s : string) :
  (∀ cur, Py.splitlines_from cur (Py.universal_newlines s)
          = Py.splitlines_from cur s)
  ∧ (∀ c cur, Py.splitlines_from cur (Py.universal_newlines (String c s))
              = Py.splitlines_from cur (String c s)).
Proof.
  induction s as [|c' s [IH1 IH2]].
  - split; [done|]. intros c cur. simpl.
    destruct (Ascii.eqb_spec c Py.CR) as [->|Hc]; [done|].
    simpl. destruct (Py.is_linebreak c); [|done].
    by destruct (Ascii.eqb c Py.CR).
  - split; [apply IH2|]. intros c cur.
    destruct (Ascii.eqb_spec c Py.CR) as [->|Hc].
    + cbn [Py.universal_newlines]. rewrite Ascii.eqb_refl.
      cbn [Py.splitlines_from].
      replace (Py.is_linebreak Py.LF) with true by reflexivity.
      replace (Py.is_linebreak Py.CR) with true by reflexivity.
      replace (Ascii.eqb Py.LF Py.CR) with false by reflexivity.
      rewrite Ascii.eqb_refl. f_equal.
      destruct (Ascii.eqb c' Py.LF); [apply IH1|apply IH2].
    + cbn [Py.universal_newlines]. apply Ascii.eqb_neq in Hc. rewrite Hc.
      cbn [Py.splitlines_from]. rewrite Hc.
      destruct (Py.is_linebreak c); [f_equal|]; apply IH2.
Qed.

Lemma splitlines_universal_newlines (s : string) :
  Py.splitlines (Py.universal_newlines s) = Py.splitlines s.
Proof. apply splitlines_from_universal_newlines. Qed.

Lemma universal_newlines_lines_text (l : list string) :
  Forall (λ line, free_of_linebreaks line = true) l →
  Py.universal_newlines (lines_text l) = lines_text l.
Proof.
  induction 1 as [|line l Hline _ IH]; [done|]. simpl.
  induction line as [|c line IHline].
  - rewrite string_app_nil_l. unfold Py.nl. rewrite string_app_cons. simpl.
    by rewrite string_app_nil_l, IH.
  - simpl in Hline. apply andb_true_iff in Hline as [Hc Hline].
    apply negb_true_iff, is_linebreak_CR in Hc.
    rewrite string_app_cons. simpl. rewrite Hc.
    by rewrite IHline.
Qed.

(** ** Reading and writing files *)

Lemma writelines_some (path text : string) (hits : list string) (w : World) :
  files w !! path = Some text →
  writelines path (Some <$> hits) w
  = (Return (), {| files := <[path := text +:+ lines_text hits]> (files w);
                   trace := trace w |}).
Proof.
  revert text w. induction hits as [|hit hits IH]; intros text w Hpath.
  - simpl. rewrite string_app_nil_r, insert_id by done. by destruct w.
  - cbn [fmap list_fmap writelines lines_text].
    unfold mbind, M_bind, append_text at 1. rewrite Hpath. cbn [default].
    erewrite IH by apply lookup_insert_eq. cbn [files trace].
    by rewrite insert_insert_eq, !string_app_assoc.
Qed.

Lemma save_hits_some (output_file : string) (hits : list string) (w : World) :
  save_hits output_file (Some <$> hits) w
  = (Return (), {| files := <[output_file := lines_text hits]> (files w);
                   trace := trace w |}).
Proof.
  unfold save_hits, mbind, M_bind, open_truncate.
  erewrite writelines_some by apply lookup_insert_eq. cbn [files trace].
  by rewrite insert_insert_eq, string_app_nil_l.
Qed.

Lemma read_lines_file (input_file text : string) (w : World) :
  files w !! input_file = Some text →
  read_lines input_file w
  = (Return (Py.splitlines (Py.universal_newlines text)), w).
Proof.
  intros Hfile. unfold read_lines, mbind, M_bind, read_text. by rewrite Hfile.
Qed.


(** Saved lines without line boundaries are read back as they were
    written, in the same order. *)
Lemma save_then_read (output_file : string) (hits : list string) (w : World) :
  Forall (λ hit, free_of_linebreaks hit = true) hits →
  fst (read_lines output_file (snd (save_hits output_file (Some <$> hits) w)))
  = Return hits.
Proof.
  intros Hfree. rewrite save_hits_some. cbn [snd].
  erewrite read_lines_file by apply lookup_insert_eq. cbn [fst].
  by rewrite universal_newlines_lines_text, splitlines_lines_text.
Qed.

(** C8 (as amended): every output set of non-empty accessions that hold no
    line-boundary character is read back from the written file, line by
    line, as the same set. *)
Theorem output_roundtrip (hits : list string) :
  NoDup hits →
  Forall (λ hit, hit ≠ "") hits →
  Forall (λ hit, free_of_linebreaks hit = true) hits →
  reads_back hits.
Proof.
  intros _ _ Hfree output_file w. exists hits. split; [|done].
  by apply save_then_read.
Qed.

Lemma output_roundtrip_witness :
  reads_back ["A0A000"; "A0A001"].
Proof.
  apply output_roundtrip.
  - by apply (bool_decide_unpack _).
  - repeat constructor; discriminate.
  - repeat constructor.
Defined.

(** C8 (as stated) fails: an accession that holds a newline is written as
    two lines. *)
Lemma output_roundtrip_counterexample :
  let hit := "A" +:+ Py.nl +:+ "B" in
  NoDup [hit] ∧ Forall (λ hit, hit ≠ "") [hit] ∧ ¬ reads_back [hit].
Proof.
  split; [|split].
  - apply NoDup_singleton.
  - repeat constructor. discriminate.
  - intros Hback.
    destruct (Hback "out.txt" {| files := ∅; trace := [] |})
      as (lines & Hlines & Hperm).
    vm_compute in Hlines. injection Hlines as <-.
    apply Permutation_length in Hperm. discriminate.
Qed.

(** ** The query set of [map_refseqids_rest] *)

Lemma list_set_NoDup (l : list string) : NoDup (Py.list_set l).
Proof. unfold Py.list_set. apply NoDup_elements. Qed.

Lemma list_set_elem_of (l : list string) (x : string) :
  x ∈ Py.list_set l ↔ x ∈ l.
Proof.
  unfold Py.list_set. by rewrite elem_of_elements, elem_of_list_to_set.
Qed.

Lemma list_set_length (l : list string) :
  length (Py.list_set l) = length (remove_dups l).
Proof.
  apply Permutation_length, NoDup_Permutation.
  - apply list_set_NoDup.
  - apply NoDup_remove_dups.
  - intros x. by rewrite list_set_elem_of, elem_of_remove_dups.
Qed.

(** C2 (as amended): the query set holds every distinct input line once,
    the empty line included when the file has one: it has no duplicates,
    its members are the input lines, and its size is the number of
    distinct input lines. *)
Theorem query_set_distinct_lines (input_lines : list string) :
  let input_ids := Py.list_set input_lines in
  NoDup input_ids
  ∧ (∀ x, x ∈ input_ids ↔ x ∈ input_lines)
  ∧ length input_ids = length (remove_dups input_lines).
Proof.
  split; [apply list_set_NoDup|]. split; [apply list_set_elem_of|].
  apply list_set_length.
Qed.

(** C2 (as stated) fails: an empty line of the input file is a member of
    the query set, and is counted. *)
Lemma query_set_counterexample :
  let input_lines := Py.splitlines (lines_text ["A"; ""; "B"]) in
  ¬ normalized input_lines (Py.list_set input_lines).
Proof.
  intros input_lines (_ & Hempty & _). apply Hempty.
  apply list_set_elem_of. vm_compute. set_solver.
Qed.

(** ** [Series.unique] keeps first occurrences *)

Section unique.

Context {A : Type} {A_dec : EqDecision A}.

Implicit Types (seen l : list A) (x : A).

Lemma unique_from_elem_of seen l x :
  x ∈ Pandas.unique_from seen l ↔ x ∈ l ∧ x ∉ seen.
Proof.
  revert seen. induction l as [|y l IH]; intros seen; simpl.
  - set_solver.
  - case_bool_decide as Hy.
    + rewrite IH. set_solver.
    + rewrite elem_of_cons, IH.
      destruct (decide (x = y)) as [->|]; set_solver.
Qed.

Lemma unique_from_NoDup seen l : NoDup (Pandas.unique_from seen l).
Proof.
  revert seen. induction l as [|y l IH]; intros seen; simpl.
  - constructor.
  - case_bool_decide; [apply IH|].
    constructor; [|apply IH]. rewrite unique_from_elem_of. set_solver.
Qed.

(** Re-deduplication changes nothing. *)
Lemma unique_from_id seen l :
  NoDup l → (∀ x, x ∈ l → x ∉ seen) → Pandas.unique_from seen l = l.
Proof.
  intros Hl. revert seen. induction Hl as [|y l Hy Hl IH]; intros seen Hseen.
  - done.
  - simpl. rewrite bool_decide_eq_false_2 by set_solver.
    f_equal. apply IH. intros x Hx. specialize (Hseen x). set_solver.
Qed.

Lemma unique_idempotent l :
  Pandas.unique_from [] (Pandas.unique_from [] l) = Pandas.unique_from [] l.
Proof. apply unique_from_id; [apply unique_from_NoDup|set_solver]. Qed.

(** The scan that has seen [seen] keeps position [i] of [l] exactly when
    its element is neither in [seen] nor at an earlier position. *)
Lemma omap_cons {B C} (f : B → option C) (x : B) (k : list B) :
  omap f (x :: k)
  = match f x with Some y => y :: omap f k | None => omap f k end.
Proof. reflexivity. Qed.

Lemma omap_seq_S {B} (f : nat → option B) (n : nat) :
  omap f (seq 1 n) = omap (λ i, f (S i)) (seq 0 n).
Proof.
  rewrite <-fmap_S_seq. apply list_omap_ext, Forall2_fmap_l.
  by apply Forall_Forall2_diag, Forall_true.
Qed.

Lemma omap_seq_ext {B} (f g : nat → option B) (n : nat) :
  (∀ i, f i = g i) → omap f (seq 0 n) = omap g (seq 0 n).
Proof.
  intros Hfg. apply list_omap_ext, Forall_Forall2_diag, Forall_true.
  intros i. apply Hfg.
Qed.

Lemma unique_from_positions seen l :
  Pandas.unique_from seen l
  = omap (λ i, x ← l !! i;
               if bool_decide (x ∈ seen ++ take i l) then None else Some x)
         (seq 0 (length l)).
Proof.
  revert seen. induction l as [|y l IH]; intros seen; [done|].
  cbn [length seq Pandas.unique_from]. rewrite omap_cons, omap_seq_S.
  cbn [lookup list_lookup take mbind option_bind].
  rewrite app_nil_r. case_bool_decide as Hy.
  - rewrite IH. apply omap_seq_ext. intros i.
    destruct (l !! i) as [x|]; [simpl|done].
    erewrite bool_decide_ext; [done|]. set_solver.
  - f_equal. rewrite IH. apply omap_seq_ext. intros i.
    destruct (l !! i) as [x|]; [simpl|done].
    erewrite bool_decide_ext; [done|]. set_solver.
Qed.

Lemma unique_first_occurrences l :
  Pandas.unique_from [] l = first_occurrences l.
Proof. apply unique_from_positions. Qed.

End unique.

Lemma unique_from_fmap {A B} {A_dec : EqDecision A} {B_dec : EqDecision B}
    (f : A → B)
    `{!Inj (=) (=) f} (seen l : list A) :
  Pandas.unique_from (f <$> seen) (f <$> l) = f <$> Pandas.unique_from seen l.
Proof.
  revert seen. induction l as [|y l IH]; intros seen; [done|]. simpl.
  erewrite (bool_decide_ext (f y ∈ f <$> seen) (y ∈ seen)).
  - case_bool_decide; [apply IH|]. simpl. f_equal. apply (IH (y :: seen)).
  - rewrite list_elem_of_fmap. split; [|by eauto].
    intros (z & Hz%(inj f) & ?). by subst.
Qed.

(** ** Running the primitives *)

Lemma bind_run {A B} (m : M A) (f : A → M B) (w : World) :
  (m ≫= f) w
  = match m w with
    | (Return a, w') => f a w'
    | (Raise e, w') => (Raise e, w')
    end.
Proof. reflexivity. Qed.

Lemma ret_run {A} (a : A) (w : World) : (mret a : M A) w = (Return a, w).
Proof. reflexivity. Qed.

Lemma logged_nil (w : World) : logged w [] = w.
Proof. destruct w. unfold logged. simpl. by rewrite app_nil_r. Qed.

Lemma logged_logged (w : World) (evs1 evs2 : list event) :
  logged (logged w evs1) evs2 = logged w (evs1 ++ evs2).
Proof. unfold logged. simpl. by rewrite app_assoc. Qed.

Lemma log_run (e : event) (w : World) : log e w = (Return (), logged w [e]).
Proof. reflexivity. Qed.

Lemma post_run (svc : Service) (url : string)
    (data headers : list (string * string)) (w : World) :
  post svc url data headers w
  = (Return (run_answer svc url data),
     logged w [Request {| req_method := POST; req_url := url;
                          req_data := data; req_headers := headers |}]).
Proof. reflexivity. Qed.

Lemma get_status_run (svc : Service) (url : string)
    (headers : list (string * string)) (w : World) :
  get_status svc url headers w
  = (Return (status_answer svc url (requests_to url (trace w))),
     logged w [Request {| req_method := GET; req_url := url;
                          req_data := []; req_headers := headers |}]).
Proof. reflexivity. Qed.

Lemma get_stream_run (svc : Service) (url : string)
    (headers : list (string * string)) (w : World) :
  get_stream svc url headers w
  = (Return (stream_answer svc url),
     logged w [Request {| req_method := GET; req_url := url;
                          req_data := []; req_headers := headers |}]).
Proof. reflexivity. Qed.

Lemma u_mapping_run (svc : Service) (fr to query : string) (w : World) :
  u_mapping svc fr to query w
  = (Return (mapping_answer svc fr to query), logged w [Mapping fr to query]).
Proof. reflexivity. Qed.

Lemma requests_to_app (url : string) (t1 t2 : list event) :
  requests_to url (t1 ++ t2) = (requests_to url t1 + requests_to url t2)%nat.
Proof. unfold requests_to. by rewrite List.filter_app, length_app. Qed.

Lemma string_eqb_app_l (s s1 s2 : string) :
  String.eqb (s +:+ s1) (s +:+ s2) = String.eqb s1 s2.
Proof.
  induction s as [|c s IH]; [done|].
  rewrite !string_app_cons. simpl. by rewrite Ascii.eqb_refl.
Qed.

Lemma requests_to_status_round (job : string) (sleep_time : Z)
    (t : list event) :
  requests_to (status_url job) (t ++ [status_request job; Sleep sleep_time])
  = S (requests_to (status_url job) t).
Proof.
  rewrite requests_to_app. unfold requests_to at 2.
  cbn [List.filter status_request req_url].
  rewrite String.eqb_refl. simpl. lia.
Qed.

Lemma requests_to_run_request (job input_string db : string) (t : list event) :
  requests_to (status_url job) (t ++ [run_request input_string db])
  = requests_to (status_url job) t.
Proof.
  rewrite requests_to_app. unfold requests_to at 2.
  cbn [List.filter run_request req_url]. unfold run_url, status_url.
  rewrite string_eqb_app_l. simpl. lia.
Qed.

(** ** The polling loop *)

Section polling.

Context (svc : Service) (sleep_time : Z) (ticket : list (string * string))
        (job : string).
Hypothesis ticket_job : subscript ticket "jobId" = Return job.

Lemma poll_done (budget : nat) (tries : Z) (w : World) :
  poll svc budget sleep_time ticket false tries w = (Return (false, tries), w).
Proof. by destruct budget. Qed.

Lemma poll_round (budget : nat) (tries : Z) (w : World) :
  poll svc (S budget) sleep_time ticket true tries w
  = poll svc budget sleep_time ticket
      (negb (ready_at svc job (requests_to (status_url job) (trace w))))
      (tries + 1)
      (logged w [status_request job; Sleep sleep_time]).
Proof.
  cbn [poll]. rewrite bind_run. unfold lift at 1. rewrite ticket_job.
  rewrite bind_run, get_status_run. rewrite bind_run.
  unfold sleep. rewrite log_run, logged_logged. reflexivity.
Qed.

(** No ready signal in [budget] polls: the loop leaves with
    [repeat = True] after [budget] rounds. *)
Lemma poll_never_ready (budget : nat) (tries : Z) (w : World) :
  (∀ j, (j < budget)%nat →
        ready_at svc job (requests_to (status_url job) (trace w) + j)
        = false) →
  poll svc budget sleep_time ticket true tries w
  = (Return (true, tries + Z.of_nat budget),
     logged w (poll_rounds budget job sleep_time)).
Proof.
  revert tries w. induction budget as [|budget IH]; intros tries w Hwait.
  - simpl. rewrite Z.add_0_r, logged_nil. reflexivity.
  - rewrite poll_round.
    rewrite <-(Nat.add_0_r (requests_to _ (trace w))), Hwait by lia.
    cbn [negb]. rewrite IH.
    + rewrite logged_logged. do 2 f_equal. f_equal. lia.
    + intros j Hj. cbn [logged trace].
      rewrite requests_to_status_round.
      replace (S (requests_to (status_url job) (trace w)) + j)%nat
        with (requests_to (status_url job) (trace w) + S j)%nat by lia.
      apply Hwait. lia.
Qed.

(** The first ready signal comes at the poll after [k] others, within
    the budget: the loop leaves with [repeat = False] after [k + 1]
    rounds. *)
Lemma poll_ready (budget k : nat) (tries : Z) (w : World) :
  (k < budget)%nat →
  (∀ j, (j < k)%nat →
        ready_at svc job (requests_to (status_url job) (trace w) + j)
        = false) →
  ready_at svc job (requests_to (status_url job) (trace w) + k) = true →
  poll svc budget sleep_time ticket true tries w
  = (Return (false, tries + Z.of_nat (S k)),
     logged w (poll_rounds (S k) job sleep_time)).
Proof.
  revert budget tries w.
  induction k as [|k IH]; intros budget tries w Hk Hwait Hready.
  - destruct budget as [|budget]; [lia|]. rewrite poll_round.
    rewrite Nat.add_0_r in Hready. rewrite Hready. cbn [negb].
    rewrite poll_done. reflexivity.
  - destruct budget as [|budget]; [lia|]. rewrite poll_round.
    rewrite <-(Nat.add_0_r (requests_to _ (trace w))), Hwait by lia.
    cbn [negb]. rewrite (IH budget).
    + rewrite logged_logged. do 2 f_equal. f_equal. lia.
    + lia.
    + intros j Hj. cbn [logged trace].
      rewrite requests_to_status_round.
      replace (S (requests_to (status_url job) (trace w)) + j)%nat
        with (requests_to (status_url job) (trace w) + S j)%nat by lia.
      apply Hwait. lia.
    + cbn [logged trace]. rewrite requests_to_status_round.
      replace (S (requests_to (status_url job) (trace w)) + k)%nat
        with (requests_to (status_url job) (trace w) + S k)%nat by lia.
      done.
Qed.

(** The loop obeys the equation of [while repeat and tries < limit]. *)
Lemma while_poll_unfold (limit : Z) (repeat : bool) (tries : Z) (w : World) :
  while_poll svc limit sleep_time ticket repeat tries w
  = if repeat && (tries <? limit) then
      (status ← get_status svc (status_url job) REQUESTS_HEADER;
       _ ← sleep sleep_time;
       while_poll svc limit sleep_time ticket
         (negb (Pandas.has_key "results" status)) (tries + 1)) w
    else (Return (repeat, tries), w).
Proof.
  unfold while_poll. destruct repeat; [|by rewrite poll_done].
  cbn [andb]. destruct (Z.ltb_spec tries limit) as [Hlt|Hge].
  - replace (Z.to_nat (limit - tries))
      with (S (Z.to_nat (limit - (tries + 1)))) by lia.
    rewrite poll_round, bind_run, get_status_run, bind_run.
    unfold sleep. rewrite log_run, logged_logged. reflexivity.
  - replace (Z.to_nat (limit - tries)) with O by lia. reflexivity.
Qed.

End polling.

(** ** One round of the loop over the databases *)

Section rest_round.

Context (K : Constants) (svc : Service).
Context (input_string db job : string) (i : Z) (query_dbs : list string)
        (dummy_df : Pandas.DataFrame) (w : World).

Hypothesis ticket_job :
  subscript (run_answer svc run_url (run_form input_string db)) "jobId"
  = Return job.

(** The job is ready at the poll after [k] others, within the budget,
    and the count of tries is not 10: the results are fetched and
    merged. *)
Lemma rest_for_ready (k : nat) (records : list Pandas.record) :
  (k < attempt_budget K)%nat →
  (∀ j, (j < k)%nat → ready_at svc job (polls_before job w + j) = false) →
  ready_at svc job (polls_before job w + k) = true →
  REQUESTS_TRIES K + Z.of_nat (S k) ≠ 10 →
  stream_answer svc (stream_url job) = Some records →
  rest_for K svc input_string i (db :: query_dbs) dummy_df w
  = rest_for K svc input_string (i + 1) query_dbs
      (merged i dummy_df (Pandas.of_records records))
      (logged w (run_request input_string db
                 :: poll_rounds (S k) job (REQUESTS_SLEEP_TIME K)
                 ++ [stream_request job])).
Proof.
  intros Hk Hwait Hready Htries Hstream.
  cbn [rest_for]. rewrite bind_run, post_run.
  fold run_url. fold (run_form input_string db).
  fold (run_request input_string db).
  rewrite bind_run. unfold while_poll.
  rewrite (poll_ready svc _ _ job ticket_job _ k).
  - apply Z.eqb_neq in Htries. rewrite Htries.
    rewrite bind_run. unfold lift at 1. rewrite ticket_job.
    rewrite bind_run, get_stream_run. fold (stream_url job).
    fold (stream_request job). rewrite Hstream.
    rewrite bind_run. unfold lift at 1. cbn [results_of].
    rewrite !logged_logged. unfold merged.
    destruct (Pandas.len (Pandas.of_records records) =? 0); [done|].
    by destruct (i =? 0).
  - done.
  - intros j Hj. cbn [logged trace]. rewrite requests_to_run_request.
    by apply Hwait.
  - cbn [logged trace]. by rewrite requests_to_run_request.
Qed.

(** The ready signal comes with the poll that brings the count of tries
    to 10: the run exits as if the job had not completed. *)
Lemma rest_for_ready_exit (k : nat) :
  (k < attempt_budget K)%nat →
  (∀ j, (j < k)%nat → ready_at svc job (polls_before job w + j) = false) →
  ready_at svc job (polls_before job w + k) = true →
  REQUESTS_TRIES K + Z.of_nat (S k) = 10 →
  rest_for K svc input_string i (db :: query_dbs) dummy_df w
  = (Raise (SystemExit ("The ticket failed to complete after "
                        +:+ pretty (10 * REQUESTS_SLEEP_TIME K)
                        +:+ " seconds.")),
     logged w (run_request input_string db
               :: poll_rounds (S k) job (REQUESTS_SLEEP_TIME K))).
Proof.
  intros Hk Hwait Hready Htries.
  cbn [rest_for]. rewrite bind_run, post_run.
  fold run_url. fold (run_form input_string db).
  fold (run_request input_string db).
  rewrite bind_run. unfold while_poll.
  rewrite (poll_ready svc _ _ job ticket_job _ k).
  - rewrite Htries. cbn [Z.eqb Pos.eqb]. rewrite !logged_logged. reflexivity.
  - done.
  - intros j Hj. cbn [logged trace]. rewrite requests_to_run_request.
    by apply Hwait.
  - cbn [logged trace]. by rewrite requests_to_run_request.
Qed.

(** No ready signal within the budget, and the count of tries ends at
    10: the run exits. *)
Lemma rest_for_never_ready_exit :
  (∀ j, (j < attempt_budget K)%nat →
        ready_at svc job (polls_before job w + j) = false) →
  REQUESTS_TRIES K + Z.of_nat (attempt_budget K) = 10 →
  rest_for K svc input_string i (db :: query_dbs) dummy_df w
  = (Raise (SystemExit ("The ticket failed to complete after "
                        +:+ pretty (10 * REQUESTS_SLEEP_TIME K)
                        +:+ " seconds.")),
     logged w (run_request input_string db
               :: poll_rounds (attempt_budget K) job (REQUESTS_SLEEP_TIME K))).
Proof.
  intros Hwait Htries.
  cbn [rest_for]. rewrite bind_run, post_run.
  fold run_url. fold (run_form input_string db).
  fold (run_request input_string db).
  rewrite bind_run. unfold while_poll.
  rewrite (poll_never_ready svc _ _ job ticket_job).
  - fold (attempt_budget K). rewrite Htries. cbn [Z.eqb Pos.eqb].
    rewrite !logged_logged. reflexivity.
  - intros j Hj. cbn [logged trace]. rewrite requests_to_run_request.
    by apply Hwait.
Qed.

(** No ready signal within the budget, and the count of tries does not
    end at 10: the results are fetched all the same. *)
Lemma rest_for_never_ready_fetch (records : list Pandas.record) :
  (∀ j, (j < attempt_budget K)%nat →
        ready_at svc job (polls_before job w + j) = false) →
  REQUESTS_TRIES K + Z.of_nat (attempt_budget K) ≠ 10 →
  stream_answer svc (stream_url job) = Some records →
  rest_for K svc input_string i (db :: query_dbs) dummy_df w
  = rest_for K svc input_string (i + 1) query_dbs
      (merged i dummy_df (Pandas.of_records records))
      (logged w (run_request input_string db
                 :: poll_rounds (attempt_budget K) job (REQUESTS_SLEEP_TIME K)
                 ++ [stream_request job])).
Proof.
  intros Hwait Htries Hstream.
  cbn [rest_for]. rewrite bind_run, post_run.
  fold run_url. fold (run_form input_string db).
  fold (run_request input_string db).
  rewrite bind_run. unfold while_poll.
  rewrite (poll_never_ready svc _ _ job ticket_job).
  - fold (attempt_budget K). apply Z.eqb_neq in Htries. rewrite Htries.
    rewrite bind_run. unfold lift at 1. rewrite ticket_job.
    rewrite bind_run, get_stream_run. fold (stream_url job).
    fold (stream_request job). rewrite Hstream.
    rewrite bind_run. unfold lift at 1. cbn [results_of].
    rewrite !logged_logged. unfold merged.
    destruct (Pandas.len (Pandas.of_records records) =? 0); [done|].
    by destruct (i =? 0).
  - intros j Hj. cbn [logged trace]. rewrite requests_to_run_request.
    by apply Hwait.
Qed.

(** The job is ready from the poll after [k0] others on, [k0] within the
    budget and early enough for the count of tries to stay below 10: the
    results are fetched and merged after at most [k0 + 1] polls, however
    often the job was polls_before job w before. *)
Lemma rest_for_ready_by (k0 : nat) (records : list Pandas.record) :
  (∀ n, ready_at svc job n = (k0 <=? n)%nat) →
  (k0 < attempt_budget K)%nat →
  0 ≤ REQUESTS_TRIES K →
  REQUESTS_TRIES K + Z.of_nat (S k0) < 10 →
  stream_answer svc (stream_url job) = Some records →
  ∃ k, (k ≤ k0)%nat ∧
    rest_for K svc input_string i (db :: query_dbs) dummy_df w
    = rest_for K svc input_string (i + 1) query_dbs
        (merged i dummy_df (Pandas.of_records records))
        (logged w (run_request input_string db
                   :: poll_rounds (S k) job (REQUESTS_SLEEP_TIME K)
                   ++ [stream_request job])).
Proof.
  intros Hready Hk0 Htries0 Htries Hstream.
  exists (k0 - polls_before job w)%nat. split; [lia|].
  apply rest_for_ready.
  - lia.
  - intros j Hj. rewrite Hready. apply Nat.leb_gt. lia.
  - rewrite Hready. apply Nat.leb_le. lia.
  - lia.
  - done.
Qed.

End rest_round.

(** ** The merge *)

Lemma len_merged (i : Z) (dummy_df results_df : Pandas.DataFrame) :
  (i = 0 → dummy_df = Pandas.empty) →
  Pandas.len (merged i dummy_df results_df)
  = Pandas.len dummy_df + Pandas.len results_df.
Proof.
  intros Hfirst. unfold merged.
  destruct (Z.eqb_spec (Pandas.len results_df) 0) as [Hlen|_]; [lia|].
  destruct (Z.eqb_spec i 0) as [Hi|_].
  { rewrite (Hfirst Hi). unfold Pandas.len, Py.len. simpl. lia. }
  unfold Pandas.concat, Pandas.len, Py.len. rewrite length_app. lia.
Qed.

Lemma merged_nonempty (i : Z) (dummy_df results_df : Pandas.DataFrame) :
  results_df ≠ [] →
  merged i dummy_df results_df
  = if i =? 0 then results_df else dummy_df ++ results_df.
Proof.
  intros Hrows. unfold merged, Pandas.len, Py.len.
  destruct results_df; [done|]. by rewrite (proj2 (Z.eqb_neq _ _)) by (simpl; lia).
Qed.

Lemma sum_Z_cons (x : Z) (l : list Z) : sum_Z (x :: l) = x + sum_Z l.
Proof. reflexivity. Qed.

(** A run of the loop that returns has received, for each database, the
    mapping result of its job, and returns the merge of all of them. *)
Lemma rest_for_returns (K : Constants) (svc : Service) (input_string : string)
    (query_dbs : list string) :
  ∀ (i : Z) (dummy_df df : Pandas.DataFrame) (w w' : World),
    0 ≤ i →
    (i = 0 → dummy_df = Pandas.empty) →
    rest_for K svc input_string i query_dbs dummy_df w = (Return df, w') →
    Pandas.len df
    = Pandas.len dummy_df
      + sum_Z (map (λ db, Pandas.len
                            (Pandas.of_records (mapping_result svc input_string db)))
                   query_dbs).
Proof.
  induction query_dbs as [|db query_dbs IH]; intros i dummy_df df w w' Hi Hfirst Hrun.
  - cbn in Hrun. injection Hrun as <- _. simpl. lia.
  - cbn [rest_for] in Hrun. rewrite bind_run, post_run in Hrun.
    fold run_url in Hrun. fold (run_form input_string db) in Hrun.
    rewrite bind_run in Hrun.
    destruct (while_poll _ _ _ _ _ _ _) as [[[repeat tries]|e] w1]; [|done].
    destruct (tries =? 10); [done|].
    rewrite bind_run in Hrun. unfold lift at 1 in Hrun.
    cbn [map]. rewrite sum_Z_cons. unfold mapping_result at 1.
    destruct (subscript _ "jobId") as [job|e]; [|done].
    rewrite bind_run, get_stream_run in Hrun. fold (stream_url job) in Hrun.
    destruct (stream_answer svc (stream_url job)) as [records|]; [|done].
    rewrite bind_run in Hrun. unfold lift at 1 in Hrun. cbn [results_of default] in *.
    assert (rest_for K svc input_string (i + 1) query_dbs
              (merged i dummy_df (Pandas.of_records records))
              (logged w1 [stream_request job]) = (Return df, w')) as Hrest.
    { rewrite <-Hrun. unfold merged.
      destruct (Pandas.len (Pandas.of_records records) =? 0); [done|].
      by destruct (i =? 0). }
    apply IH in Hrest; [|lia|intros ?; lia].
    rewrite Hrest, len_merged by done. unfold id. lia.
Qed.

(** ** The output writer *)

Lemma mapM_hashable_strings (column : list string) :
  mapM Pandas.hashable (string_cells column) = Some (Some <$> column).
Proof.
  induction column as [|s column IH]; [done|].
  unfold string_cells in *. cbn [fmap list_fmap mapM] in *.
  rewrite IH. reflexivity.
Qed.

Lemma unique_strings (column : list string) :
  Pandas.unique (string_cells column)
  = Return (Some <$> Pandas.unique_from [] column).
Proof.
  unfold Pandas.unique. rewrite mapM_hashable_strings.
  by rewrite <-(unique_from_fmap Some [] column).
Qed.

(** A table whose [column] holds strings is written as their unique
    values, one per line. *)
Lemma write_unique_hits_strings (column output_file : string)
    (dummy_df : Pandas.DataFrame) (values : list string) (w : World) :
  Pandas.getitem dummy_df column = Return (string_cells values) →
  write_unique_hits column output_file dummy_df w
  = (Return (),
     {| files := <[output_file := lines_text (Pandas.unique_from [] values)]>
                   (files w);
        trace := trace w |}).
Proof.
  intros Hcolumn. unfold write_unique_hits.
  rewrite bind_run. unfold lift at 1. rewrite Hcolumn.
  rewrite bind_run. unfold lift at 1. rewrite unique_strings.
  apply save_hits_some.
Qed.

(** A table without the column is not written: the run ends with a
    KeyError and the files are as they were. *)
Lemma write_unique_hits_no_column (column output_file : string)
    (dummy_df : Pandas.DataFrame) (w : World) :
  Pandas.has_column column dummy_df = false →
  write_unique_hits column output_file dummy_df w
  = (Raise (KeyError column), w).
Proof.
  intros Hcolumn. unfold write_unique_hits.
  rewrite bind_run. unfold lift at 1, Pandas.getitem. by rewrite Hcolumn.
Qed.

(** C10: the output writer of [map_refseqids_rest] writes the accessions
    of the ["to"] column of the aggregate table in the order of their
    first occurrence, each once: the lines of the output file are the
    elements of the column at the positions where they occur for the first
    time. *)
Theorem writer_keeps_first_occurrences (dummy_df : Pandas.DataFrame)
    (accessions : list string) (output_file : string) (w : World) :
  Pandas.getitem dummy_df "to" = Return (string_cells accessions) →
  write_unique_hits "to" output_file dummy_df w
  = (Return (),
     {| files := <[output_file := lines_text (first_occurrences accessions)]>
                   (files w);
        trace := trace w |}).
Proof.
  intros Hcolumn. rewrite <-unique_first_occurrences.
  by apply write_unique_hits_strings.
Qed.

Lemma writer_keeps_first_occurrences_witness :
  write_unique_hits "to" "out.txt"
    [rest_pair "P1" "B"; rest_pair "P2" "A"; rest_pair "P3" "B"]
    {| files := ∅; trace := [] |}
  = (Return (),
     {| files := <["out.txt" := lines_text
                                  (first_occurrences ["B"; "A"; "B"])]> ∅;
        trace := [] |}).
Proof.
  apply (writer_keeps_first_occurrences _ ["B"; "A"; "B"]). reflexivity.
Defined.

(** ** Whole runs *)

Lemma map_refseqids_rest_run (K : Constants) (svc : Service)
    (input_file output_file text : string) (query_dbs : list string)
    (return_full : bool) (w w1 : World) (dummy_df : Pandas.DataFrame)
    (accessions : list string) :
  files w !! input_file = Some text →
  rest_for K svc
    (Py.join "," (Py.list_set (Py.splitlines (Py.universal_newlines text))))
    0 query_dbs Pandas.empty w = (Return dummy_df, w1) →
  Pandas.getitem dummy_df "to" = Return (string_cells accessions) →
  map_refseqids_rest K svc input_file output_file query_dbs return_full w
  = (Return (if return_full then Some dummy_df else None),
     {| files := <[output_file := lines_text (Pandas.unique_from [] accessions)]>
                   (files w1);
        trace := trace w1 |}).
Proof.
  intros Hfile Hloop Hcolumn. unfold map_refseqids_rest.
  rewrite bind_run, (read_lines_file _ text) by done.
  rewrite bind_run, Hloop.
  rewrite bind_run, (write_unique_hits_strings _ _ _ accessions) by done.
  reflexivity.
Qed.

Lemma map_refseqids_rest_no_column (K : Constants) (svc : Service)
    (input_file output_file text : string) (query_dbs : list string)
    (return_full : bool) (w w1 : World) (dummy_df : Pandas.DataFrame) :
  files w !! input_file = Some text →
  rest_for K svc
    (Py.join "," (Py.list_set (Py.splitlines (Py.universal_newlines text))))
    0 query_dbs Pandas.empty w = (Return dummy_df, w1) →
  Pandas.has_column "to" dummy_df = false →
  map_refseqids_rest K svc input_file output_file query_dbs return_full w
  = (Raise (KeyError "to"), w1).
Proof.
  intros Hfile Hloop Hcolumn. unfold map_refseqids_rest.
  rewrite bind_run, (read_lines_file _ text) by done.
  rewrite bind_run, Hloop.
  rewrite bind_run, write_unique_hits_no_column by done.
  reflexivity.
Qed.

(** ** The aggregate table *)

(** C6: the table the merge loop of [map_refseqids_rest] returns has as
    many rows as the mapping results of the configured databases have
    together, whichever of them are empty and wherever they stand. *)
Theorem aggregate_row_count (K : Constants) (svc : Service)
    (input_string : string) (query_dbs : list string)
    (w w' : World) (dummy_df : Pandas.DataFrame) :
  rest_for K svc input_string 0 query_dbs Pandas.empty w
  = (Return dummy_df, w') →
  Pandas.len dummy_df
  = sum_Z (map (λ db, Pandas.len
                        (Pandas.of_records (mapping_result svc input_string db)))
               query_dbs).
Proof.
  intros Hrun. by apply rest_for_returns in Hrun as ->.
Qed.

Lemma aggregate_row_count_witness :
  let svc := scenario_service always scenario_rows scenario_entries in
  let query_dbs := ["db0"; "db1"; "db2"; "db1"] in
  let run := rest_for module_constants svc "P12345,Q9Y6K9" 0 query_dbs
               Pandas.empty scenario_world in
  Pandas.len (match fst run with
              | Return dummy_df => dummy_df
              | Raise _ => []
              end)
  = sum_Z (map (λ db, Pandas.len
                        (Pandas.of_records
                           (mapping_result svc "P12345,Q9Y6K9" db)))
               query_dbs).
Proof.
  intros svc query_dbs run.
  apply (aggregate_row_count module_constants svc "P12345,Q9Y6K9" query_dbs
           scenario_world (snd run)).
  vm_compute. reflexivity.
Defined.

(** ** The scenario of the specification *)

(** C7: the input lines P12345, P12345, Q9Y6K9 with two databases, of
    which the first maps P12345 to A0A000 and Q9Y6K9 to A0A001 and the
    second nothing, give an output file of exactly the two lines A0A000
    and A0A001. The jobs of the two databases are ready from some poll on,
    each no later than from its ninth. *)
Theorem scenario_output (svc : Service) (w : World)
    (input_file output_file db1 db2 job1 job2 : string) (k1 k2 : nat) :
  let input_string := Py.join "," (Py.list_set scenario_lines) in
  files w !! input_file = Some (lines_text scenario_lines) →
  subscript (run_answer svc run_url (run_form input_string db1)) "jobId"
  = Return job1 →
  subscript (run_answer svc run_url (run_form input_string db2)) "jobId"
  = Return job2 →
  (k1 < 9)%nat → (∀ n, ready_at svc job1 n = (k1 <=? n)%nat) →
  (k2 < 9)%nat → (∀ n, ready_at svc job2 n = (k2 <=? n)%nat) →
  stream_answer svc (stream_url job1)
  = Some [rest_pair "P12345" "A0A000"; rest_pair "Q9Y6K9" "A0A001"] →
  stream_answer svc (stream_url job2) = Some [] →
  let run := map_refseqids_rest module_constants svc input_file output_file
               [db1; db2] false w in
  fst run = Return None
  ∧ files (snd run) !! output_file = Some (lines_text ["A0A000"; "A0A001"]).
Proof.
  intros input_string Hfile Hjob1 Hjob2 Hk1 Hready1 Hk2 Hready2 Hrows1 Hrows2 run.
  subst run.
  destruct (rest_for_ready_by module_constants svc input_string db1 job1 0
              [db2] Pandas.empty w Hjob1 k1
              [rest_pair "P12345" "A0A000"; rest_pair "Q9Y6K9" "A0A001"]
              Hready1)
    as (n1 & _ & Hround1); [unfold attempt_budget; cbn; lia|cbn; lia|cbn; lia|exact Hrows1|].
  destruct (rest_for_ready_by module_constants svc input_string db2 job2 (0 + 1)
              [] (merged 0 Pandas.empty
                    (Pandas.of_records
                       [rest_pair "P12345" "A0A000"; rest_pair "Q9Y6K9" "A0A001"]))
              (logged w (run_request input_string db1
                         :: poll_rounds (S n1) job1 30 ++ [stream_request job1]))
              Hjob2 k2 [] Hready2)
    as (n2 & _ & Hround2); [unfold attempt_budget; cbn; lia|cbn; lia|cbn; lia|exact Hrows2|].
  erewrite (map_refseqids_rest_run _ _ _ _ _ _ _ _ _ _ ["A0A000"; "A0A001"]).
  - split; [done|]. cbn [snd files]. by rewrite lookup_insert_eq.
  - done.
  - replace (Py.splitlines (Py.universal_newlines (lines_text scenario_lines)))
      with scenario_lines by (vm_compute; reflexivity).
    fold input_string. rewrite Hround1. cbn [REQUESTS_SLEEP_TIME module_constants].
    rewrite Hround2. reflexivity.
  - reflexivity.
Qed.

Lemma scenario_output_witness :
  let svc := scenario_service always scenario_rows scenario_entries in
  let run := map_refseqids_rest module_constants svc "in.txt" "out.txt"
               ["db1"; "db2"] false scenario_world in
  fst run = Return None
  ∧ files (snd run) !! "out.txt" = Some (lines_text ["A0A000"; "A0A001"]).
Proof.
  intros svc.
  apply (scenario_output svc scenario_world "in.txt" "out.txt" "db1" "db2"
           "job-db1" "job-db2" 0 0); try reflexivity; lia.
Defined.

(** The bioservices back end on the same scenario. *)
Lemma scenario_output_bioservices :
  let svc := scenario_service always scenario_rows scenario_entries in
  let run := map_refseqids_bioservices svc "in.txt" "out.txt"
               ["db1"; "db2"] false scenario_world in
  fst run = Return None
  ∧ files (snd run) !! "out.txt" = Some (lines_text ["A0A000"; "A0A001"])
  ∧ trace (snd run)
    = [Mapping "db1" "UniProtKB" "P12345,P12345,Q9Y6K9";
       Mapping "db2" "UniProtKB" "P12345,P12345,Q9Y6K9"].
Proof. vm_compute. done. Qed.

(** ** The poll scheduler *)

(** C1 (the code at the failing input): with the constants of the module,
    a job whose first ready signal comes with the tenth poll is reported
    as failed to complete, after ten polls and without a request for its
    results, although the ready signal came within the budget. *)
Theorem timeout_despite_ready_signal :
  let svc := scenario_service at_tenth_poll scenario_rows scenario_entries in
  let run := map_refseqids_rest module_constants svc "in.txt" "out.txt"
               ["db1"] false scenario_world in
  ready_at svc "job-db1" 9 = true
  ∧ fst run
    = Raise (SystemExit "The ticket failed to complete after 300 seconds.")
  ∧ trace (snd run)
    = run_request (Py.join "," (Py.list_set scenario_lines)) "db1"
      :: poll_rounds 10 "job-db1" 30
  ∧ files (snd run) !! "out.txt" = None.
Proof. vm_compute. done. Qed.

(** With an attempt budget of 3 and a job that never signals readiness,
    the run polls three times and then requests the results: the count of
    tries is compared with 10, not with the budget. *)
Lemma budget_three_never_times_out :
  let svc := scenario_service never scenario_rows scenario_entries in
  let run := map_refseqids_rest budget_three svc "in.txt" "out.txt"
               ["db1"] false scenario_world in
  fst run = Return None
  ∧ trace (snd run)
    = run_request (Py.join "," (Py.list_set scenario_lines)) "db1"
      :: poll_rounds 3 "job-db1" 30 ++ [stream_request "job-db1"]
  ∧ files (snd run) !! "out.txt" = Some (lines_text ["A0A000"; "A0A001"]).
Proof. vm_compute. done. Qed.

(** With the constants of the module, a job that gives no ready signal in
    ten polls is reported as failed to complete. *)
Lemma never_ready_times_out :
  let svc := scenario_service never scenario_rows scenario_entries in
  let run := map_refseqids_rest module_constants svc "in.txt" "out.txt"
               ["db1"] false scenario_world in
  fst run
  = Raise (SystemExit "The ticket failed to complete after 300 seconds.")
  ∧ trace (snd run)
    = run_request (Py.join "," (Py.list_set scenario_lines)) "db1"
      :: poll_rounds 10 "job-db1" 30.
Proof. vm_compute. done. Qed.

(** ** Databases without hits *)

Lemma merged_empty (i : Z) (dummy_df : Pandas.DataFrame) :
  merged i dummy_df (Pandas.of_records []) = dummy_df.
Proof. reflexivity. Qed.

(** C3 (the code at the failing input): when every configured database
    returns zero rows, both back ends end with a KeyError on the
    accession column and write no output file. *)
Theorem all_empty_aborts :
  let svc := scenario_service always no_rows no_rows in
  let rest := map_refseqids_rest module_constants svc "in.txt" "out.txt"
                ["db1"; "db2"] false scenario_world in
  let bioservices := map_refseqids_bioservices svc "in.txt" "out.txt"
                       ["db1"; "db2"] false scenario_world in
  fst rest = Raise (KeyError "to")
  ∧ files (snd rest) !! "out.txt" = None
  ∧ fst bioservices = Raise (KeyError "to.primaryAccession")
  ∧ files (snd bioservices) !! "out.txt" = None.
Proof. vm_compute. done. Qed.

(** A database without hits among others is skipped. *)
Lemma empty_database_skipped :
  let svc := scenario_service always scenario_rows scenario_entries in
  let run := map_refseqids_rest module_constants svc "in.txt" "out.txt"
               ["db0"; "db1"; "db2"] true scenario_world in
  fst run
  = Return (Some [rest_pair "P12345" "A0A000"; rest_pair "Q9Y6K9" "A0A001"])
  ∧ files (snd run) !! "out.txt" = Some (lines_text ["A0A000"; "A0A001"]).
Proof. vm_compute. done. Qed.

(** ** The user-agent header *)

(** C9 (the code at the failing input): the request for the results of a
    job carries no header. *)
Theorem stream_request_without_header :
  let svc := scenario_service always scenario_rows scenario_entries in
  let run := map_refseqids_rest module_constants svc "in.txt" "out.txt"
               ["db1"] false scenario_world in
  trace (snd run)
  = [Request {| req_method := POST; req_url := run_url;
                req_data := run_form (Py.join "," (Py.list_set scenario_lines))
                              "db1";
                req_headers := REQUESTS_HEADER |};
     Request {| req_method := GET; req_url := status_url "job-db1";
                req_data := []; req_headers := REQUESTS_HEADER |};
     Sleep 30;
     Request {| req_method := GET; req_url := stream_url "job-db1";
                req_data := []; req_headers := [] |}].
Proof. vm_compute. done. Qed.

(** ** Identifiers, queries and their fields *)

Lemma digits_inj (p q : positive) : digits p = digits q → p = q.
Proof.
  revert q. induction p as [p IH|p IH|]; intros [q|q|] Heq;
    simpl in Heq; try discriminate; try done.
  - injection Heq as Heq. f_equal. by apply IH.
  - injection Heq as Heq. by destruct p.
  - injection Heq as Heq. f_equal. by apply IH.
  - injection Heq as Heq. by destruct q.
Qed.

Lemma identifier_inj (n m : nat) : identifier n = identifier m → n = m.
Proof. intros Heq%digits_inj. by apply SuccNat2Pos.inj. Qed.

Lemma digits_free_of_linebreaks (p : positive) :
  free_of_linebreaks (digits p) = true.
Proof. induction p as [p IH|p IH|]; simpl; by rewrite ?IH. Qed.

Lemma digits_free_of_commas (p : positive) : free_of_commas (digits p) = true.
Proof. induction p as [p IH|p IH|]; simpl; by rewrite ?IH. Qed.

Lemma identifiers_NoDup (n : nat) : NoDup (identifiers n).
Proof.
  unfold identifiers. apply NoDup_fmap_2_strong; [|apply NoDup_seq].
  intros i j _ _. apply identifier_inj.
Qed.

Lemma identifiers_length (n : nat) : length (identifiers n) = n.
Proof. unfold identifiers. by rewrite length_fmap, length_seq. Qed.

Lemma identifiers_free_of_linebreaks (n : nat) :
  Forall (λ line, free_of_linebreaks line = true) (identifiers n).
Proof.
  unfold identifiers. apply Forall_fmap, Forall_true. intros i.
  apply digits_free_of_linebreaks.
Qed.

Lemma identifiers_free_of_commas (n : nat) :
  Forall (λ id, free_of_commas id = true) (identifiers n).
Proof.
  unfold identifiers. apply Forall_fmap, Forall_true. intros i.
  apply digits_free_of_commas.
Qed.

Lemma identifiers_S (n : nat) :
  identifiers (S n) = identifiers n ++ [identifier n].
Proof. unfold identifiers. by rewrite seq_S, fmap_app. Qed.

Lemma identifiers_elem_of (n i : nat) :
  identifier i ∈ identifiers n ↔ (i < n)%nat.
Proof.
  unfold identifiers. rewrite list_elem_of_fmap. split.
  - intros (j & ->%identifier_inj & Hj%elem_of_seq). lia.
  - intros Hi. exists i. split; [done|]. apply elem_of_seq. lia.
Qed.

Lemma list_set_of_NoDup (l : list string) : NoDup l → Py.list_set l ≡ₚ l.
Proof.
  intros Hl. apply NoDup_Permutation; [apply list_set_NoDup|done|].
  apply list_set_elem_of.
Qed.

Lemma list_set_nonempty (l : list string) : l ≠ [] → Py.list_set l ≠ [].
Proof.
  destruct l as [|x l]; [done|]. intros _ Hnil.
  assert (x ∈ Py.list_set (x :: l)) as Hx by (apply list_set_elem_of; left).
  rewrite Hnil in Hx. by apply elem_of_nil in Hx.
Qed.

Lemma list_set_Forall (P : string → Prop) (l : list string) :
  Forall P l → Forall P (Py.list_set l).
Proof.
  rewrite !list.Forall_forall. intros HP x Hx. apply HP. by apply list_set_elem_of.
Qed.

Lemma split_from_field (field cur rest : string) :
  free_of_commas field = true →
  split_from ","%char cur (field +:+ String ","%char rest)
  = (cur +:+ field) :: split_from ","%char "" rest.
Proof.
  revert cur. induction field as [|c field IH]; intros cur Hfree.
  - rewrite string_app_nil_r, string_app_nil_l. reflexivity.
  - simpl in Hfree. apply andb_true_iff in Hfree as [Hc Hfield].
    apply negb_true_iff in Hc. rewrite string_app_cons. simpl. rewrite Hc.
    rewrite IH by done. by rewrite string_app_snoc.
Qed.

Lemma split_from_last (field cur : string) :
  free_of_commas field = true →
  split_from ","%char cur field = [cur +:+ field].
Proof.
  revert cur. induction field as [|c field IH]; intros cur Hfree.
  - by rewrite string_app_nil_r.
  - simpl in Hfree. apply andb_true_iff in Hfree as [Hc Hfield].
    apply negb_true_iff in Hc. simpl. rewrite Hc.
    rewrite IH by done. by rewrite string_app_snoc.
Qed.

(** The fields of a comma-joined query are the joined identifiers. *)
Lemma split_commas_join (ids : list string) :
  ids ≠ [] →
  Forall (λ id, free_of_commas id = true) ids →
  split_commas (Py.join "," ids) = ids.
Proof.
  intros Hne Hfree. unfold split_commas, Py.join.
  induction Hfree as [|id ids Hid Hids IH]; [done|].
  destruct ids as [|id' ids].
  - simpl. by rewrite split_from_last.
  - change (String.concat "," (id :: id' :: ids))
      with (id +:+ String ","%char (String.concat "," (id' :: ids))).
    rewrite split_from_field by done. rewrite IH by done. reflexivity.
Qed.

Lemma string_drop_app (prefix s : string) :
  string_drop (String.length prefix) (prefix +:+ s) = s.
Proof. induction prefix as [|c prefix IH]; [by destruct s|]. apply IH. Qed.

Lemma stream_url_prefix (job : string) : stream_url job = stream_url "" +:+ job.
Proof.
  unfold stream_url. by rewrite string_app_nil_r, !string_app_assoc.
Qed.

(** ** Runs against the identity service *)

Lemma identity_ticket (input_string db : string) :
  subscript (run_answer identity_service run_url (run_form input_string db))
    "jobId" = Return input_string.
Proof. reflexivity. Qed.

Lemma identity_stream (job : string) :
  stream_answer identity_service (stream_url job)
  = Some ((λ id, rest_pair id id) <$> split_commas job).
Proof.
  cbn [stream_answer identity_service].
  rewrite (stream_url_prefix job) at 1. by rewrite string_drop_app.
Qed.

Lemma getitem_rest_pairs (ids : list string) :
  ids ≠ [] →
  Pandas.getitem ((λ id, rest_pair id id) <$> ids) "to"
  = Return (string_cells ids).
Proof.
  intros Hne. unfold Pandas.getitem.
  destruct ids as [|id ids]; [done|]. cbn [fmap list_fmap Pandas.has_column existsb].
  replace (Pandas.has_key "to" (rest_pair id id)) with true by reflexivity.
  cbn [orb]. f_equal. unfold string_cells.
  change (Pandas.get "to" (rest_pair id id) :: map (Pandas.get "to") ((λ id0, rest_pair id0 id0) <$> ids)
          = (λ s, Some (Pandas.JStr s)) <$> (id :: ids)).
  cbn [fmap list_fmap]. f_equal.
  induction ids as [|id' ids IH]; [done|]. cbn [fmap list_fmap map]. by rewrite IH.
Qed.

Lemma getitem_bioservices_pairs (ids : list string) :
  ids ≠ [] →
  Pandas.getitem
    (Pandas.json_normalize ((λ id, bioservices_pair id id) <$> ids))
    "to.primaryAccession"
  = Return (string_cells ids).
Proof.
  intros Hne. unfold Pandas.getitem, Pandas.json_normalize.
  destruct ids as [|id ids]; [done|].
  cbn [fmap list_fmap map Pandas.has_column existsb].
  replace (Pandas.has_key "to.primaryAccession"
             (Pandas.normalize_record (bioservices_pair id id)))
    with true by reflexivity.
  cbn [orb]. f_equal. unfold string_cells. cbn [fmap list_fmap]. f_equal.
  induction ids as [|id' ids IH]; [done|]. cbn [fmap list_fmap map]. by rewrite IH.
Qed.

Lemma bioservices_for_round (svc : Service) (ids : list string) (i : Z)
    (db : string) (query_dbs : list string) (dummy_df : Pandas.DataFrame)
    (records : list Pandas.record) (w : World) :
  mapping_answer svc db "UniProtKB" (Py.join "," ids) = Some records →
  bioservices_for svc ids i (db :: query_dbs) dummy_df w
  = bioservices_for svc ids (i + 1) query_dbs
      (merged i dummy_df (Pandas.json_normalize records))
      (logged w [Mapping db "UniProtKB" (Py.join "," ids)]).
Proof.
  intros Hanswer. cbn [bioservices_for].
  rewrite bind_run, u_mapping_run, Hanswer.
  rewrite bind_run. unfold lift at 1. cbn [results_of]. unfold merged.
  destruct (Pandas.len (Pandas.json_normalize records) =? 0); [done|].
  by destruct (i =? 0).
Qed.

Lemma map_refseqids_bioservices_run (svc : Service)
    (input_file output_file text : string) (query_dbs : list string)
    (return_full : bool) (w w1 : World) (dummy_df : Pandas.DataFrame)
    (accessions : list string) :
  let lines := Py.splitlines (Py.universal_newlines text) in
  files w !! input_file = Some text →
  bioservices_for svc
    (if Py.len lines >? 100000 then Py.slice_to 100000 lines else lines)
    0 query_dbs Pandas.empty w = (Return dummy_df, w1) →
  Pandas.getitem dummy_df "to.primaryAccession"
  = Return (string_cells accessions) →
  map_refseqids_bioservices svc input_file output_file query_dbs return_full w
  = (Return (if return_full then Some dummy_df else None),
     {| files := <[output_file := lines_text (Pandas.unique_from [] accessions)]>
                   (files w1);
        trace := trace w1 |}).
Proof.
  intros lines Hfile Hloop Hcolumn. unfold map_refseqids_bioservices.
  rewrite bind_run, (read_lines_file _ text) by done.
  fold lines. rewrite bind_run, Hloop.
  rewrite bind_run, (write_unique_hits_strings _ _ _ accessions) by done.
  reflexivity.
Qed.

Section identity_runs.

Context (lines : list string) (input_file output_file db : string) (w : World).

Hypothesis input_text : files w !! input_file = Some (lines_text lines).
Hypothesis lines_nonempty : lines ≠ [].
Hypothesis lines_free_of_linebreaks :
  Forall (λ line, free_of_linebreaks line = true) lines.
Hypothesis lines_free_of_commas :
  Forall (λ id, free_of_commas id = true) lines.

(** [map_refseqids_rest] submits every distinct line and writes every
    distinct line. *)
Lemma identity_rest_run :
  let input_ids := Py.list_set lines in
  let job := Py.join "," input_ids in
  map_refseqids_rest module_constants identity_service input_file output_file
    [db] false w
  = (Return None,
     {| files := <[output_file := lines_text input_ids]> (files w);
        trace := trace w ++ [run_request job db; status_request job; Sleep 30;
                             stream_request job] |}).
Proof.
  intros input_ids job.
  erewrite (map_refseqids_rest_run _ _ _ _ _ _ _ _
              (logged w [run_request job db; status_request job; Sleep 30;
                         stream_request job]) _ input_ids).
  - rewrite unique_from_id; [reflexivity|apply list_set_NoDup|].
    intros x _. apply not_elem_of_nil.
  - done.
  - rewrite universal_newlines_lines_text, splitlines_lines_text by done.
    fold input_ids. fold job.
    erewrite (rest_for_ready _ _ _ _ job _ _ _ _ (identity_ticket job db) 0);
      [|first [done | unfold attempt_budget; cbn; lia | intros; lia
               | apply identity_stream]..].
    reflexivity.
  - subst job.
    rewrite (stream_url_prefix (Py.join "," input_ids)), string_drop_app.
    rewrite split_commas_join.
    + rewrite merged_nonempty.
      * by apply getitem_rest_pairs, list_set_nonempty.
      * intros Hnil%fmap_nil_inv. by apply (list_set_nonempty lines).
    + by apply list_set_nonempty.
    + by apply list_set_Forall.
Qed.

(** [map_refseqids_bioservices] submits the first 100,000 lines and
    writes those of them that are distinct. *)
Lemma identity_bioservices_run :
  let ids := if Py.len lines >? 100000 then Py.slice_to 100000 lines
             else lines in
  ids ≠ [] →
  Forall (λ id, free_of_commas id = true) ids →
  map_refseqids_bioservices identity_service input_file output_file [db] false w
  = (Return None,
     {| files := <[output_file := lines_text (Pandas.unique_from [] ids)]>
                   (files w);
        trace := trace w ++ [Mapping db "UniProtKB" (Py.join "," ids)] |}).
Proof.
  intros ids Hne Hfree.
  erewrite (map_refseqids_bioservices_run _ _ _ _ _ _ _
              (logged w [Mapping db "UniProtKB" (Py.join "," ids)]) _ ids).
  - reflexivity.
  - done.
  - rewrite universal_newlines_lines_text, splitlines_lines_text by done.
    fold ids. erewrite bioservices_for_round by reflexivity. reflexivity.
  - cbn [mapping_answer identity_service]. rewrite split_commas_join by done.
    rewrite merged_nonempty.
    + by apply getitem_bioservices_pairs.
    + unfold Pandas.json_normalize. destruct ids; [done|]. done.
Qed.

End identity_runs.

(** ** The large input *)

Lemma large_input_len : Py.len large_input = 100001.
Proof.
  unfold Py.len, large_input. rewrite identifiers_length. lia.
Qed.

Lemma large_input_slice :
  Py.slice_to 100000 large_input = identifiers (Z.to_nat 100000).
Proof.
  unfold Py.slice_to, large_input.
  replace (Z.to_nat 100001) with (S (Z.to_nat 100000)) by lia.
  rewrite identifiers_S. apply take_app_length'. by rewrite identifiers_length.
Qed.

Lemma large_input_nonempty : large_input ≠ [].
Proof.
  intros Hnil. pose proof large_input_len as Hlen. rewrite Hnil in Hlen.
  discriminate.
Qed.

Lemma large_input_ids :
  (if Py.len large_input >? 100000 then Py.slice_to 100000 large_input
   else large_input)
  = identifiers (Z.to_nat 100000).
Proof. rewrite large_input_len. apply large_input_slice. Qed.

Lemma large_world_input :
  files large_world !! "in.txt" = Some (lines_text large_input).
Proof. apply lookup_singleton_eq. Qed.

Lemma large_input_list_set_len : Py.len (Py.list_set large_input) = 100001.
Proof.
  unfold Py.len.
  rewrite (Permutation_length
             (list_set_of_NoDup large_input (identifiers_NoDup _))).
  apply large_input_len.
Qed.

Lemma large_rest_run :
  map_refseqids_rest module_constants identity_service "in.txt" "out.txt"
    ["db1"] false large_world
  = (Return None,
     {| files := <["out.txt" := lines_text (Py.list_set large_input)]>
                   (files large_world);
        trace := [run_request (Py.join "," (Py.list_set large_input)) "db1";
                  status_request (Py.join "," (Py.list_set large_input));
                  Sleep 30;
                  stream_request (Py.join "," (Py.list_set large_input))] |}).
Proof.
  apply (identity_rest_run large_input "in.txt" "out.txt" "db1" large_world).
  - apply large_world_input.
  - apply large_input_nonempty.
  - apply identifiers_free_of_linebreaks.
  - apply identifiers_free_of_commas.
Qed.

Lemma large_bioservices_run :
  map_refseqids_bioservices identity_service "in.txt" "out.txt"
    ["db1"] false large_world
  = (Return None,
     {| files := <["out.txt" := lines_text (identifiers (Z.to_nat 100000))]>
                   (files large_world);
        trace := [Mapping "db1" "UniProtKB"
                    (Py.join "," (identifiers (Z.to_nat 100000)))] |}).
Proof.
  rewrite (identity_bioservices_run large_input "in.txt" "out.txt" "db1" large_world).
  - rewrite large_input_ids.
    rewrite unique_from_id; [reflexivity|apply identifiers_NoDup|].
    intros x _. apply not_elem_of_nil.
  - apply large_world_input.
  - apply identifiers_free_of_linebreaks.
  - rewrite large_input_ids. intros Hnil.
    pose proof (identifiers_length (Z.to_nat 100000)) as Hlen.
    rewrite Hnil in Hlen. simpl in Hlen. lia.
  - rewrite large_input_ids. apply identifiers_free_of_commas.
Qed.

Lemma large_slice_len : Py.len (Py.slice_to 100000 large_input) = 100000.
Proof.
  rewrite large_input_slice. unfold Py.len. rewrite identifiers_length. lia.
Qed.

Lemma large_rest_first_event :
  head (trace (snd (map_refseqids_rest module_constants identity_service
                      "in.txt" "out.txt" ["db1"] false large_world)))
  = Some (run_request (Py.join "," (Py.list_set large_input)) "db1").
Proof. rewrite large_rest_run. reflexivity. Qed.

Lemma large_bioservices_first_event :
  head (trace (snd (map_refseqids_bioservices identity_service
                      "in.txt" "out.txt" ["db1"] false large_world)))
  = Some (Mapping "db1" "UniProtKB"
            (Py.join "," (Py.slice_to 100000 large_input))).
Proof. rewrite large_bioservices_run, large_input_slice. reflexivity. Qed.

Lemma large_rest_output :
  fst (map_refseqids_rest module_constants identity_service
         "in.txt" "out.txt" ["db1"] false large_world) = Return None
  ∧ files (snd (map_refseqids_rest module_constants identity_service
                  "in.txt" "out.txt" ["db1"] false large_world)) !! "out.txt"
    = Some (lines_text (Py.list_set large_input)).
Proof.
  rewrite large_rest_run. split; [reflexivity|]. apply lookup_insert_eq.
Qed.

Lemma large_bioservices_output :
  fst (map_refseqids_bioservices identity_service
         "in.txt" "out.txt" ["db1"] false large_world) = Return None
  ∧ files (snd (map_refseqids_bioservices identity_service
                  "in.txt" "out.txt" ["db1"] false large_world)) !! "out.txt"
    = Some (lines_text (Py.slice_to 100000 large_input)).
Proof.
  rewrite large_bioservices_run, large_input_slice. split; [reflexivity|].
  apply lookup_insert_eq.
Qed.

Lemma large_last_submitted :
  identifier (Z.to_nat 100000) ∈ Py.list_set large_input.
Proof. apply list_set_elem_of, identifiers_elem_of. lia. Qed.

Lemma large_last_truncated :
  identifier (Z.to_nat 100000) ∉ Py.slice_to 100000 large_input.
Proof. rewrite large_input_slice, identifiers_elem_of. lia. Qed.

Lemma large_outputs_differ :
  Some (lines_text (Py.list_set large_input))
  ≠ Some (lines_text (Py.slice_to 100000 large_input)).
Proof.
  intros Heq. apply (inj Some) in Heq. apply large_last_truncated.
  apply (f_equal Py.splitlines) in Heq.
  rewrite !splitlines_lines_text in Heq.
  - rewrite <-Heq. apply large_last_submitted.
  - rewrite large_input_slice. apply identifiers_free_of_linebreaks.
  - apply list_set_Forall, identifiers_free_of_linebreaks.
Qed.

(** C5 (the code at the failing input): of an input file of 100,001
    distinct lines, [map_refseqids_bioservices] submits the first 100,000,
    and [map_refseqids_rest] submits all 100,001 in its one request per
    database. *)
Theorem rest_batch_not_capped :
  let rest := map_refseqids_rest module_constants identity_service
                "in.txt" "out.txt" ["db1"] false large_world in
  let bioservices := map_refseqids_bioservices identity_service
                       "in.txt" "out.txt" ["db1"] false large_world in
  let input_ids := Py.list_set large_input in
  let ids := Py.slice_to 100000 large_input in
  head (trace (snd bioservices))
  = Some (Mapping "db1" "UniProtKB" (Py.join "," ids))
  ∧ Py.len ids = 100000
  ∧ head (trace (snd rest)) = Some (run_request (Py.join "," input_ids) "db1")
  ∧ Py.len input_ids = 100001.
Proof.
  intros rest bioservices input_ids ids.
  split; [apply large_bioservices_first_event|].
  split; [apply large_slice_len|].
  split; [apply large_rest_first_event|].
  apply large_input_list_set_len.
Qed.

(** C4 (the code at the failing input): on an input file of 100,001
    distinct lines, against a service that maps every submitted identifier
    to itself, [map_refseqids_rest] writes the accession of the last line
    and [map_refseqids_bioservices] does not: the two output files
    differ. *)
Theorem backends_differ_on_large_input :
  let rest := map_refseqids_rest module_constants identity_service
                "in.txt" "out.txt" ["db1"] false large_world in
  let bioservices := map_refseqids_bioservices identity_service
                       "in.txt" "out.txt" ["db1"] false large_world in
  let last := identifier (Z.to_nat 100000) in
  fst rest = Return None
  ∧ fst bioservices = Return None
  ∧ files (snd rest) !! "out.txt"
    = Some (lines_text (Py.list_set large_input))
  ∧ files (snd bioservices) !! "out.txt"
    = Some (lines_text (Py.slice_to 100000 large_input))
  ∧ (last ∈ Py.list_set large_input)
  ∧ (last ∉ Py.slice_to 100000 large_input)
  ∧ files (snd rest) !! "out.txt" ≠ files (snd bioservices) !! "out.txt".
Proof.
  intros rest bioservices last.
  destruct large_rest_output as [Hrest Hrest_file].
  destruct large_bioservices_output as [Hbio Hbio_file].
  split; [exact Hrest|]. split; [exact Hbio|].
  split; [exact Hrest_file|]. split; [exact Hbio_file|].
  split; [apply large_last_submitted|]. split; [apply large_last_truncated|].
  unfold rest, bioservices. rewrite Hrest_file, Hbio_file.
  apply large_outputs_differ.
Qed.

(** ** The requests of a run *)

Section emits.

Context (P : event → Prop).

Lemma emits_ret {A} (a : A) : emits P (mret a : M A).
Proof. intros w. exists []. by rewrite app_nil_r. Qed.

Lemma emits_raise {A} (e : exn) : emits P (raise e : M A).
Proof. intros w. exists []. by rewrite app_nil_r. Qed.

Lemma emits_lift {A} (r : result A) : emits P (lift r).
Proof. intros w. exists []. by rewrite app_nil_r. Qed.

Lemma emits_log (e : event) : P e → emits P (log e).
Proof. intros He w. exists [e]. split; [done|]. by constructor. Qed.

Lemma emits_bind {A B} (m : M A) (f : A → M B) :
  emits P m → (∀ a, emits P (f a)) → emits P (m ≫= f).
Proof.
  intros Hm Hf w. rewrite bind_run. destruct (Hm w) as (evs1 & Htrace1 & Hevs1).
  destruct (m w) as [[a|e] w1].
  - destruct (Hf a w1) as (evs2 & Htrace2 & Hevs2).
    exists (evs1 ++ evs2). split; [|by apply Forall_app].
    rewrite Htrace2. cbn [snd] in Htrace1. by rewrite Htrace1, app_assoc.
  - by exists evs1.
Qed.

Lemma emits_files {A} (m : M A) :
  (∀ w, trace (snd (m w)) = trace w) → emits P m.
Proof. intros Hm w. exists []. by rewrite app_nil_r. Qed.

End emits.

Lemma emits_poll (svc : Service) (budget : nat) (sleep_time : Z)
    (ticket : list (string * string)) (repeat : bool) (tries : Z) :
  emits rest_event (poll svc budget sleep_time ticket repeat tries).
Proof.
  revert repeat tries. induction budget as [|budget IH]; intros repeat tries.
  - apply emits_ret.
  - cbn [poll]. destruct repeat; [|apply emits_ret].
    apply emits_bind; [apply emits_lift|]. intros job.
    apply emits_bind.
    { intros w. rewrite get_status_run. eexists. split; [reflexivity|].
      constructor; [|done]. right. left. eauto. }
    intros status. apply emits_bind; [by apply emits_log|]. intros _. apply IH.
Qed.

Lemma emits_rest_for (K : Constants) (svc : Service) (input_string : string)
    (query_dbs : list string) (i : Z) (dummy_df : Pandas.DataFrame) :
  emits rest_event (rest_for K svc input_string i query_dbs dummy_df).
Proof.
  revert i dummy_df. induction query_dbs as [|db query_dbs IH]; intros i dummy_df.
  - apply emits_ret.
  - cbn [rest_for]. apply emits_bind.
    { intros w. rewrite post_run. eexists. split; [reflexivity|].
      constructor; [|done]. left. done. }
    intros ticket. apply emits_bind; [apply emits_poll|]. intros [repeat tries].
    destruct (tries =? 10); [apply emits_raise|].
    apply emits_bind; [apply emits_lift|]. intros job.
    apply emits_bind.
    { intros w. rewrite get_stream_run. eexists. split; [reflexivity|].
      constructor; [|done]. right. right. eauto. }
    intros results. apply emits_bind; [apply emits_lift|]. intros records.
    destruct (Pandas.len (Pandas.of_records records) =? 0); [apply IH|].
    destruct (i =? 0); apply IH.
Qed.

Lemma emits_writelines (P : event → Prop) (path : string)
    (hits : list (option string)) :
  emits P (writelines path hits).
Proof.
  induction hits as [|[hit|] hits IH].
  - apply emits_ret.
  - cbn [writelines]. apply emits_bind; [by apply emits_files|]. intros _. apply IH.
  - apply emits_raise.
Qed.

Lemma emits_write_unique_hits (P : event → Prop) (column output_file : string)
    (dummy_df : Pandas.DataFrame) :
  emits P (write_unique_hits column output_file dummy_df).
Proof.
  unfold write_unique_hits. apply emits_bind; [apply emits_lift|]. intros series.
  apply emits_bind; [apply emits_lift|]. intros hits.
  unfold save_hits. apply emits_bind; [by apply emits_files|]. intros _.
  apply emits_writelines.
Qed.

Lemma emits_read_lines (P : event → Prop) (input_file : string) :
  emits P (read_lines input_file).
Proof.
  unfold read_lines. apply emits_bind; [|intros; apply emits_ret].
  apply emits_files. intros w. unfold read_text. by destruct (files w !! _).
Qed.

(** In every run of [map_refseqids_rest], whatever the files, the service
    and the constants, and however the run ends: each submission and each
    poll carries the user-agent header of the module, and each request for
    results carries no header. *)
Lemma rest_requests (K : Constants) (svc : Service)
    (input_file output_file : string) (query_dbs : list string)
    (return_full : bool) :
  emits rest_event
    (map_refseqids_rest K svc input_file output_file query_dbs return_full).
Proof.
  unfold map_refseqids_rest.
  apply emits_bind; [apply emits_read_lines|]. intros input_lines.
  apply emits_bind; [apply emits_rest_for|]. intros dummy_df.
  apply emits_bind; [apply emits_write_unique_hits|]. intros _.
  apply emits_ret.
Qed.

(** ** The two back ends on the same data *)

Lemma json_normalize_bioservices_rows (pairs : list (string * string)) :
  Pandas.json_normalize (bioservices_rows pairs) = flat_rows pairs.
Proof.
  unfold Pandas.json_normalize, bioservices_rows, flat_rows.
  induction pairs as [|p pairs IH]; [done|].
  cbn [fmap list_fmap map]. by rewrite IH.
Qed.

Lemma getitem_rest_rows (pairs : list (string * string)) :
  pairs ≠ [] →
  Pandas.getitem (rest_rows pairs) "to" = Return (string_cells (snd <$> pairs)).
Proof.
  intros Hne. unfold Pandas.getitem, rest_rows.
  destruct pairs as [|p pairs]; [done|].
  cbn [fmap list_fmap Pandas.has_column existsb].
  replace (Pandas.has_key "to" (rest_pair (fst p) (snd p))) with true
    by reflexivity.
  cbn [orb]. f_equal. unfold string_cells. cbn [fmap list_fmap map]. f_equal.
  induction pairs as [|p' pairs IH]; [done|].
  cbn [fmap list_fmap map]. by rewrite IH.
Qed.

Lemma getitem_flat_rows (pairs : list (string * string)) :
  pairs ≠ [] →
  Pandas.getitem (flat_rows pairs) "to.primaryAccession"
  = Return (string_cells (snd <$> pairs)).
Proof.
  intros Hne. unfold Pandas.getitem, flat_rows.
  destruct pairs as [|p pairs]; [done|].
  cbn [fmap list_fmap Pandas.has_column existsb].
  replace (Pandas.has_key "to.primaryAccession"
             [("from", Pandas.JStr (fst p));
              ("to.primaryAccession", Pandas.JStr (snd p))])
    with true by reflexivity.
  cbn [orb]. f_equal. unfold string_cells. cbn [fmap list_fmap map]. f_equal.
  induction pairs as [|p' pairs IH]; [done|].
  cbn [fmap list_fmap map]. by rewrite IH.
Qed.

Lemma merged_rows {A} (row : A → Pandas.record) (i : Z) (seen new : list A) :
  (i = 0 → seen = []) →
  merged i (row <$> seen) (row <$> new) = row <$> (seen ++ new).
Proof.
  intros Hfirst. destruct new as [|x new].
  - by rewrite app_nil_r.
  - rewrite merged_nonempty by done. destruct (Z.eqb_spec i 0) as [Hi|_].
    + by rewrite (Hfirst Hi).
    + by rewrite fmap_app.
Qed.

Section same_data.

Context (svc : Service) (pairs : string → list (string * string)).

Lemma rest_for_pairs (input_string : string) (query_dbs : list string) :
  ∀ (i : Z) (seen : list (string * string)) (w : World),
    Forall (rest_serves svc pairs input_string) query_dbs →
    0 ≤ i → (i = 0 → seen = []) →
    ∃ w', rest_for module_constants svc input_string i query_dbs
            (rest_rows seen) w
          = (Return (rest_rows (seen ++ concat (pairs <$> query_dbs))), w')
          ∧ files w' = files w.
Proof.
  induction query_dbs as [|db query_dbs IH]; intros i seen w Hserves Hi Hfirst.
  - exists w. cbn. by rewrite app_nil_r.
  - apply Forall_cons in Hserves
      as [(job & k0 & Hjob & Hk0 & Hready & Hstream) Hserves].
    destruct (rest_for_ready_by module_constants svc input_string db job i
                query_dbs (rest_rows seen) w Hjob k0
                (rest_rows (pairs db)) Hready)
      as (k & _ & ->); [unfold attempt_budget; cbn; lia|cbn; lia|cbn; lia|exact Hstream|].
    unfold rest_rows at 1 2, Pandas.of_records. rewrite merged_rows by done.
    destruct (IH (i + 1) (seen ++ pairs db)
                (logged w (run_request input_string db
                           :: poll_rounds (S k) job
                                (REQUESTS_SLEEP_TIME module_constants)
                           ++ [stream_request job])))
      as (w' & Hrun & Hfiles); [done|lia|lia|].
    exists w'. split; [|done]. etrans; [exact Hrun|].
    cbn [fmap list_fmap concat]. by rewrite app_assoc.
Qed.

Lemma bioservices_for_pairs (ids : list string) (query_dbs : list string) :
  ∀ (i : Z) (seen : list (string * string)) (w : World),
    Forall (bioservices_serves svc pairs ids) query_dbs →
    0 ≤ i → (i = 0 → seen = []) →
    ∃ w', bioservices_for svc ids i query_dbs (flat_rows seen) w
          = (Return (flat_rows (seen ++ concat (pairs <$> query_dbs))), w')
          ∧ files w' = files w.
Proof.
  induction query_dbs as [|db query_dbs IH]; intros i seen w Hserves Hi Hfirst.
  - exists w. cbn. by rewrite app_nil_r.
  - apply Forall_cons in Hserves as [Hdb Hserves].
    rewrite (bioservices_for_round _ _ _ _ _ _ _ _ Hdb).
    rewrite json_normalize_bioservices_rows.
    unfold flat_rows at 1 2.
    rewrite (merged_rows _ i seen (pairs db)) by done.
    destruct (IH (i + 1) (seen ++ pairs db)
                (logged w [Mapping db "UniProtKB" (Py.join "," ids)]))
      as (w' & Hrun & Hfiles); [done|lia|lia|].
    exists w'. split; [|done]. etrans; [exact Hrun|].
    cbn [fmap list_fmap concat]. by rewrite app_assoc.
Qed.

(** When the service hands both back ends the same mapping pairs for every
    configured database, each in the shape of the back end, the two back
    ends leave the same files: the same output file, or none when no
    database maps anything. *)
Lemma backends_agree_on_same_data (input_file output_file text : string)
    (query_dbs : list string) (w : World) :
  let lines := Py.splitlines (Py.universal_newlines text) in
  files w !! input_file = Some text →
  Forall (rest_serves svc pairs (Py.join "," (Py.list_set lines))) query_dbs →
  Forall (bioservices_serves svc pairs
            (if Py.len lines >? 100000 then Py.slice_to 100000 lines
             else lines))
         query_dbs →
  files (snd (map_refseqids_rest module_constants svc input_file output_file
                query_dbs false w))
  = files (snd (map_refseqids_bioservices svc input_file output_file
                  query_dbs false w)).
Proof.
  intros lines Hfile Hrest Hbio.
  destruct (rest_for_pairs _ query_dbs 0 [] w Hrest) as (w1 & Hrun1 & Hfiles1);
    [done..|].
  destruct (bioservices_for_pairs _ query_dbs 0 [] w Hbio) as (w2 & Hrun2 & Hfiles2);
    [done..|].
  cbn [app] in Hrun1, Hrun2.
  destruct (concat (pairs <$> query_dbs)) as [|p all] eqn:Hall.
  - unfold map_refseqids_rest, map_refseqids_bioservices.
    rewrite !bind_run, (read_lines_file _ text) by done. fold lines.
    rewrite !bind_run. change Pandas.empty with (rest_rows []) at 1.
    rewrite Hrun1. change Pandas.empty with (flat_rows []).
    rewrite Hrun2. rewrite !bind_run.
    rewrite !write_unique_hits_no_column by reflexivity.
    cbn [snd]. congruence.
  - erewrite (map_refseqids_rest_run _ _ _ _ _ _ _ _ _ _ (snd <$> p :: all));
      [|done|exact Hrun1|by apply getitem_rest_rows].
    erewrite (map_refseqids_bioservices_run _ _ _ _ _ _ _ _ _ (snd <$> p :: all));
      [|done|exact Hrun2|by apply getitem_flat_rows].
    cbn [snd files]. congruence.
Qed.

End same_data.

(** ** What a run does to the files *)

Lemma keeps_files_ret {A} (a : A) : keeps_files (mret a : M A).
Proof. by intros w. Qed.

Lemma keeps_files_raise {A} (e : exn) : keeps_files (raise e : M A).
Proof. by intros w. Qed.

Lemma keeps_files_lift {A} (r : result A) : keeps_files (lift r).
Proof. by intros w. Qed.

Lemma keeps_files_log (e : event) : keeps_files (log e).
Proof. by intros w. Qed.

Lemma keeps_files_bind {A B} (m : M A) (f : A → M B) :
  keeps_files m → (∀ a, keeps_files (f a)) → keeps_files (m ≫= f).
Proof.
  intros Hm Hf w. rewrite bind_run. specialize (Hm w).
  destruct (m w) as [[a|e] w1]; [|done].
  cbn [snd] in Hm. by rewrite Hf.
Qed.


Lemma keeps_files_poll (svc : Service) (budget : nat) (sleep_time : Z)
    (ticket : list (string * string)) (repeat : bool) (tries : Z) :
  keeps_files (poll svc budget sleep_time ticket repeat tries).
Proof.
  revert repeat tries. induction budget as [|budget IH]; intros repeat tries.
  - apply keeps_files_ret.
  - cbn [poll]. destruct repeat; [|apply keeps_files_ret].
    apply keeps_files_bind; [apply keeps_files_lift|]. intros job.
    apply keeps_files_bind; [by intros w|]. intros status.
    apply keeps_files_bind; [apply keeps_files_log|]. intros _. apply IH.
Qed.

(** The loop over the databases of [map_refseqids_rest] leaves every file
    as it is, however it ends. *)
Lemma keeps_files_rest_for (K : Constants) (svc : Service)
    (input_string : string) (query_dbs : list string) (i : Z)
    (dummy_df : Pandas.DataFrame) :
  keeps_files (rest_for K svc input_string i query_dbs dummy_df).
Proof.
  revert i dummy_df. induction query_dbs as [|db query_dbs IH]; intros i dummy_df.
  - apply keeps_files_ret.
  - cbn [rest_for]. apply keeps_files_bind; [by intros w|]. intros ticket.
    apply keeps_files_bind; [apply keeps_files_poll|]. intros [repeat tries].
    destruct (tries =? 10); [apply keeps_files_raise|].
    apply keeps_files_bind; [apply keeps_files_lift|]. intros job.
    apply keeps_files_bind; [by intros w|]. intros results.
    apply keeps_files_bind; [apply keeps_files_lift|]. intros records.
    destruct (Pandas.len (Pandas.of_records records) =? 0); [apply IH|].
    destruct (i =? 0); apply IH.
Qed.









(** X3: when the loop over the databases of [map_refseqids_rest] ends with
    an exception (a job that timed out, a rejected submission, an answer
    without results), the run ends with the same exception and every file
    is as it was: the results of the databases that completed before are
    not written. *)
Theorem failed_loop_writes_nothing (K : Constants) (svc : Service)
    (input_file output_file text : string) (query_dbs : list string)
    (return_full : bool) (w : World) (e : exn) :
  files w !! input_file = Some text →
  fst (rest_for K svc
         (Py.join "," (Py.list_set (Py.splitlines (Py.universal_newlines text))))
         0 query_dbs Pandas.empty w) = Raise e →
  fst (map_refseqids_rest K svc input_file output_file query_dbs return_full w)
  = Raise e
  ∧ files (snd (map_refseqids_rest K svc input_file output_file query_dbs
                  return_full w))
    = files w.
Proof.
  intros Hfile Hloop. unfold map_refseqids_rest.
  rewrite bind_run, (read_lines_file _ text) by done. rewrite bind_run.
  pose proof (keeps_files_rest_for K svc
                (Py.join "," (Py.list_set
                   (Py.splitlines (Py.universal_newlines text))))
                query_dbs 0 Pandas.empty w) as Hfiles.
  destruct (rest_for _ _ _ _ _ _ _) as [[dummy_df|e'] w1]; [done|].
  cbn [fst snd] in *. by injection Hloop as ->.
Qed.

Lemma failed_loop_writes_nothing_witness :
  let svc := job_service first_job_only scenario_rows in
  let run := map_refseqids_rest module_constants svc "in.txt" "out.txt"
               ["db1"; "db2"] false scenario_world in
  fst run
  = Raise (SystemExit "The ticket failed to complete after 300 seconds.")
  ∧ files (snd run) = files scenario_world.
Proof.
  intros svc.
  apply (failed_loop_writes_nothing module_constants svc "in.txt" "out.txt"
           (lines_text scenario_lines)); reflexivity.
Defined.

(** ** The poll scheduler, in general *)

(** X4: with the constants of the module, a job that gives no ready
    signal in ten polls ends the run with the message of 300 seconds,
    after exactly ten polls of thirty seconds each and without a request
    for its results. *)
Theorem unready_job_times_out (svc : Service) (input_string db job : string)
    (i : Z) (query_dbs : list string) (dummy_df : Pandas.DataFrame)
    (w : World) :
  subscript (run_answer svc run_url (run_form input_string db)) "jobId"
  = Return job →
  (∀ j, (j < 10)%nat → ready_at svc job (polls_before job w + j) = false) →
  rest_for module_constants svc input_string i (db :: query_dbs) dummy_df w
  = (Raise (SystemExit "The ticket failed to complete after 300 seconds."),
     logged w (run_request input_string db :: poll_rounds 10 job 30)).
Proof.
  intros Hjob Hwait.
  rewrite (rest_for_never_ready_exit module_constants svc input_string db job
             i query_dbs dummy_df w Hjob); [reflexivity|exact Hwait|reflexivity].
Qed.

Lemma unready_job_times_out_witness :
  let svc := scenario_service never scenario_rows scenario_entries in
  rest_for module_constants svc "P12345,Q9Y6K9" 0 ["db1"; "db2"] Pandas.empty
    scenario_world
  = (Raise (SystemExit "The ticket failed to complete after 300 seconds."),
     logged scenario_world
       (run_request "P12345,Q9Y6K9" "db1" :: poll_rounds 10 "job-db1" 30)).
Proof.
  intros svc.
  apply (unready_job_times_out svc "P12345,Q9Y6K9" "db1" "job-db1");
    [reflexivity|intros j _; reflexivity].
Defined.

(** X5: the polling loop stops with the first ready signal. When the
    signal comes with the poll after [k] others and that poll is within
    the limit, the loop makes exactly [k + 1] polls, sleeps after each of
    them (after the one that brought the signal too), and leaves with
    [repeat = False] and [tries] raised by [k + 1]. *)
Theorem polling_stops_at_first_ready_signal (svc : Service)
    (limit sleep_time : Z) (ticket : list (string * string)) (job : string)
    (tries : Z) (k : nat) (w : World) :
  subscript ticket "jobId" = Return job →
  tries + Z.of_nat k < limit →
  (∀ j, (j < k)%nat → ready_at svc job (polls_before job w + j) = false) →
  ready_at svc job (polls_before job w + k) = true →
  while_poll svc limit sleep_time ticket true tries w
  = (Return (false, tries + Z.of_nat k + 1),
     logged w (poll_rounds (S k) job sleep_time)).
Proof.
  intros Hjob Hk Hwait Hready. unfold while_poll.
  rewrite (poll_ready svc sleep_time ticket job Hjob _ k); [|lia|done|done].
  do 2 f_equal. f_equal. lia.
Qed.

Lemma polling_stops_at_first_ready_signal_witness :
  let svc := scenario_service (λ n, (2 <=? n)%nat) scenario_rows
               scenario_entries in
  while_poll svc 10 30 [("jobId", "job-db1")] true 0 scenario_world
  = (Return (false, 0 + Z.of_nat 2 + 1),
     logged scenario_world (poll_rounds 3 "job-db1" 30)).
Proof.
  intros svc.
  apply (polling_stops_at_first_ready_signal svc 10 30 [("jobId", "job-db1")]
           "job-db1" 0 2 scenario_world); [reflexivity|lia| |reflexivity].
  intros j Hj. destruct j as [|[|j]]; [reflexivity|reflexivity|lia].
Defined.

(** X6: the polling loop gives up at the limit. When no poll brings the
    ready signal, the loop makes exactly [limit - tries] polls, sleeps
    after each, and leaves with [repeat = True] and [tries = limit]. *)
Theorem polling_gives_up_at_limit (svc : Service)
    (limit sleep_time : Z) (ticket : list (string * string)) (job : string)
    (tries : Z) (w : World) :
  subscript ticket "jobId" = Return job →
  tries ≤ limit →
  (∀ j, (j < Z.to_nat (limit - tries))%nat →
        ready_at svc job (polls_before job w + j) = false) →
  while_poll svc limit sleep_time ticket true tries w
  = (Return (true, limit),
     logged w (poll_rounds (Z.to_nat (limit - tries)) job sleep_time)).
Proof.
  intros Hjob Hlimit Hwait. unfold while_poll.
  rewrite (poll_never_ready svc sleep_time ticket job Hjob) by done.
  do 2 f_equal. f_equal. lia.
Qed.

Lemma polling_gives_up_at_limit_witness :
  let svc := scenario_service never scenario_rows scenario_entries in
  while_poll svc 3 30 [("jobId", "job-db1")] true 0 scenario_world
  = (Return (true, 3),
     logged scenario_world (poll_rounds (Z.to_nat (3 - 0)) "job-db1" 30)).
Proof.
  intros svc.
  apply (polling_gives_up_at_limit svc 3 30 [("jobId", "job-db1")]
           "job-db1" 0 scenario_world); [reflexivity|lia|].
  intros j _. reflexivity.
Defined.

(** ** Answers that miss a key *)

Lemma subscript_raise (d : list (string * string)) (key : string) (e : exn) :
  subscript d key = Raise e → e = KeyError key.
Proof.
  induction d as [|[k v] d IH]; simpl.
  - by intros [= <-].
  - destruct (String.eqb key k); [done|apply IH].
Qed.

(** X7: a submission whose answer has no ["jobId"] (a rejected job) ends
    the run with KeyError right after the POST: the job is neither polled
    nor fetched, and the databases that follow are not submitted. *)
Theorem rejected_submission (K : Constants) (svc : Service)
    (input_string db : string) (i : Z) (query_dbs : list string)
    (dummy_df : Pandas.DataFrame) (w : World) :
  subscript (run_answer svc run_url (run_form input_string db)) "jobId"
  = Raise (KeyError "jobId") →
  (0 < attempt_budget K)%nat ∨ REQUESTS_TRIES K ≠ 10 →
  rest_for K svc input_string i (db :: query_dbs) dummy_df w
  = (Raise (KeyError "jobId"), logged w [run_request input_string db]).
Proof.
  intros Hticket Hstart. cbn [rest_for]. rewrite bind_run, post_run.
  fold run_url. fold (run_form input_string db).
  fold (run_request input_string db). rewrite bind_run. unfold while_poll.
  fold (attempt_budget K). destruct (attempt_budget K) as [|budget] eqn:Hbudget.
  - destruct Hstart as [?|Htries]; [lia|]. cbn [poll]. rewrite ret_run.
    apply Z.eqb_neq in Htries. rewrite Htries.
    rewrite bind_run. unfold lift at 1. by rewrite Hticket.
  - cbn [poll]. rewrite bind_run. unfold lift at 1. by rewrite Hticket.
Qed.

Lemma rejected_submission_witness :
  let svc := fixed_service [("messages", "Invalid from database")] None in
  rest_for module_constants svc "P12345,Q9Y6K9" 0 ["db1"; "db2"] Pandas.empty
    scenario_world
  = (Raise (KeyError "jobId"),
     logged scenario_world [run_request "P12345,Q9Y6K9" "db1"]).
Proof.
  intros svc.
  apply (rejected_submission module_constants svc); [reflexivity|].
  left. unfold attempt_budget. cbn. lia.
Defined.

(** X8: when the answer to the request for results has no ["results"],
    the run ends with KeyError after that request, and the databases that
    follow are not submitted. *)
Theorem results_missing (K : Constants) (svc : Service)
    (input_string db job : string) (i : Z) (query_dbs : list string)
    (dummy_df : Pandas.DataFrame) (w : World) (k : nat) :
  subscript (run_answer svc run_url (run_form input_string db)) "jobId"
  = Return job →
  (k < attempt_budget K)%nat →
  (∀ j, (j < k)%nat → ready_at svc job (polls_before job w + j) = false) →
  ready_at svc job (polls_before job w + k) = true →
  REQUESTS_TRIES K + Z.of_nat (S k) ≠ 10 →
  stream_answer svc (stream_url job) = None →
  rest_for K svc input_string i (db :: query_dbs) dummy_df w
  = (Raise (KeyError "results"),
     logged w (run_request input_string db
               :: poll_rounds (S k) job (REQUESTS_SLEEP_TIME K)
               ++ [stream_request job])).
Proof.
  intros Hjob Hk Hwait Hready Htries Hstream.
  cbn [rest_for]. rewrite bind_run, post_run.
  fold run_url. fold (run_form input_string db).
  fold (run_request input_string db).
  rewrite bind_run. unfold while_poll.
  rewrite (poll_ready svc _ _ job Hjob _ k).
  - apply Z.eqb_neq in Htries. rewrite Htries.
    rewrite bind_run. unfold lift at 1. rewrite Hjob.
    rewrite bind_run, get_stream_run. fold (stream_url job).
    fold (stream_request job). rewrite Hstream.
    rewrite bind_run. unfold lift at 1. cbn [results_of].
    by rewrite !logged_logged.
  - done.
  - intros j Hj. cbn [logged trace].
    rewrite requests_to_run_request. by apply Hwait.
  - cbn [logged trace]. by rewrite requests_to_run_request.
Qed.

Lemma results_missing_witness :
  let svc := fixed_service [("jobId", "job-1")] None in
  rest_for module_constants svc "P12345,Q9Y6K9" 0 ["db1"; "db2"] Pandas.empty
    scenario_world
  = (Raise (KeyError "results"),
     logged scenario_world
       (run_request "P12345,Q9Y6K9" "db1"
        :: poll_rounds 1 "job-1" 30 ++ [stream_request "job-1"])).
Proof.
  intros svc.
  apply (results_missing module_constants svc "P12345,Q9Y6K9" "db1" "job-1"
           0 ["db2"] Pandas.empty scenario_world 0);
    [reflexivity|unfold attempt_budget; cbn; lia|intros; lia|reflexivity
    |cbn; lia|reflexivity].
Defined.

(** ** No timeout below ten *)

Lemma never_exits_ret {A} (a : A) : never_exits (mret a : M A).
Proof. by intros w msg. Qed.

Lemma never_exits_lift_subscript (d : list (string * string)) (key : string) :
  never_exits (lift (subscript d key)).
Proof.
  intros w msg. unfold lift. cbn [fst].
  destruct (subscript d key) as [v|e] eqn:Hd; [done|].
  apply subscript_raise in Hd as ->. done.
Qed.

Lemma never_exits_lift_results {A} (results : option A) :
  never_exits (lift (results_of results)).
Proof. intros w msg. by destruct results. Qed.

Lemma never_exits_bind {A B} (Q : A → Prop) (m : M A) (f : A → M B) :
  never_exits m →
  (∀ w a w', m w = (Return a, w') → Q a) →
  (∀ a, Q a → never_exits (f a)) →
  never_exits (m ≫= f).
Proof.
  intros Hm HQ Hf w msg. rewrite bind_run. specialize (Hm w msg).
  destruct (m w) as [[a|e] w1] eqn:Hrun.
  - apply Hf. by eapply HQ.
  - cbn [fst] in *. intros [= ->]. by apply Hm.
Qed.

Lemma never_exits_bind_any {A B} (m : M A) (f : A → M B) :
  never_exits m → (∀ a, never_exits (f a)) → never_exits (m ≫= f).
Proof.
  intros Hm Hf. apply (never_exits_bind (λ _, True)); [done|done|].
  intros a _. apply Hf.
Qed.

Lemma never_exits_poll (svc : Service) (budget : nat) (sleep_time : Z)
    (ticket : list (string * string)) (repeat : bool) (tries : Z) :
  never_exits (poll svc budget sleep_time ticket repeat tries).
Proof.
  revert repeat tries. induction budget as [|budget IH]; intros repeat tries.
  - apply never_exits_ret.
  - cbn [poll]. destruct repeat; [|apply never_exits_ret].
    apply never_exits_bind_any; [apply never_exits_lift_subscript|].
    intros job. apply never_exits_bind_any; [by intros w msg|]. intros status.
    apply never_exits_bind_any; [by intros w msg|]. intros _. apply IH.
Qed.

(** The count of tries that the polling loop leaves with lies between the
    count it started with and that count plus the budget. *)
Lemma poll_tries (svc : Service) (budget : nat) (sleep_time : Z)
    (ticket : list (string * string)) :
  ∀ (repeat : bool) (tries : Z) (w w' : World) (repeat' : bool) (tries' : Z),
    poll svc budget sleep_time ticket repeat tries w
    = (Return (repeat', tries'), w') →
    tries ≤ tries' ≤ tries + Z.of_nat budget.
Proof.
  induction budget as [|budget IH]; intros repeat tries w w' repeat' tries' Hrun.
  - cbn in Hrun. injection Hrun as _ <- _. lia.
  - cbn [poll] in Hrun. destruct repeat.
    + rewrite bind_run in Hrun. unfold lift at 1 in Hrun.
      destruct (subscript ticket "jobId") as [job|e]; [|done].
      rewrite bind_run, get_status_run, bind_run in Hrun.
      unfold sleep in Hrun. rewrite log_run in Hrun.
      apply IH in Hrun. lia.
    + cbn in Hrun. injection Hrun as _ <- _. lia.
Qed.

Lemma never_exits_rest_for (K : Constants) (svc : Service)
    (input_string : string) (query_dbs : list string) (i : Z)
    (dummy_df : Pandas.DataFrame) :
  REQUESTS_TRIES K < 10 → REQUESTS_LIMIT K < 10 →
  never_exits (rest_for K svc input_string i query_dbs dummy_df).
Proof.
  intros Htries Hlimit. revert i dummy_df.
  induction query_dbs as [|db query_dbs IH]; intros i dummy_df.
  - apply never_exits_ret.
  - cbn [rest_for]. apply never_exits_bind_any; [by intros w msg|]. intros ticket.
    apply (never_exits_bind (λ rt, snd rt < 10)).
    + apply never_exits_poll.
    + intros w [repeat tries] w' Hrun. apply poll_tries in Hrun. cbn [snd]. lia.
    + intros [repeat tries] Hbelow. cbn [snd] in Hbelow.
      rewrite (proj2 (Z.eqb_neq tries 10)) by lia.
      apply never_exits_bind_any; [apply never_exits_lift_subscript|].
      intros job. apply never_exits_bind_any; [by intros w msg|]. intros results.
      apply never_exits_bind_any; [apply never_exits_lift_results|].
      intros records.
      destruct (Pandas.len (Pandas.of_records records) =? 0); [apply IH|].
      destruct (i =? 0); apply IH.
Qed.

Lemma never_exits_writelines (path : string) (hits : list (option string)) :
  never_exits (writelines path hits).
Proof.
  induction hits as [|[hit|] hits IH]; [by intros w msg| |by intros w msg].
  cbn [writelines]. apply never_exits_bind_any; [by intros w msg|].
  intros _. apply IH.
Qed.

Lemma never_exits_write_unique_hits (column output_file : string)
    (dummy_df : Pandas.DataFrame) :
  never_exits (write_unique_hits column output_file dummy_df).
Proof.
  unfold write_unique_hits. apply never_exits_bind_any.
  { intros w msg. unfold lift, Pandas.getitem. by destruct (Pandas.has_column _ _). }
  intros series. apply never_exits_bind_any.
  { intros w msg. unfold lift, Pandas.unique. by destruct (mapM _ _). }
  intros hits. unfold save_hits. apply never_exits_bind_any; [by intros w msg|].
  intros _. apply never_exits_writelines.
Qed.

(** X9: the timeout is tied to the number 10, not to the limit. With a
    limit below 10 (and a start count below 10) no run of
    [map_refseqids_rest] ever ends with [sys.exit], whatever the service
    answers and however long a job stays unready. *)
Theorem no_timeout_below_ten (K : Constants) (svc : Service)
    (input_file output_file : string) (query_dbs : list string)
    (return_full : bool) :
  REQUESTS_TRIES K < 10 → REQUESTS_LIMIT K < 10 →
  never_exits
    (map_refseqids_rest K svc input_file output_file query_dbs return_full).
Proof.
  intros Htries Hlimit. unfold map_refseqids_rest.
  apply never_exits_bind_any.
  { intros w msg. unfold read_lines. rewrite bind_run. unfold read_text.
    by destruct (files w !! input_file). }
  intros input_lines.
  apply never_exits_bind_any; [by apply never_exits_rest_for|]. intros dummy_df.
  apply never_exits_bind_any; [apply never_exits_write_unique_hits|].
  intros _. apply never_exits_ret.
Qed.

Lemma no_timeout_below_ten_witness :
  never_exits
    (map_refseqids_rest budget_three
       (scenario_service never scenario_rows scenario_entries)
       "in.txt" "out.txt" DEFAULT_DBS false).
Proof. apply no_timeout_below_ten; cbn; lia. Defined.

(** ** How long a run waits *)

Lemma slept_app (evs1 evs2 : list event) :
  slept (evs1 ++ evs2) = slept evs1 + slept evs2.
Proof.
  induction evs1 as [|[r|fr to query|seconds] evs1 IH]; simpl; lia.
Qed.

Lemma slept_poll_rounds (n : nat) (job : string) (sleep_time : Z) :
  slept (poll_rounds n job sleep_time) = Z.of_nat n * sleep_time.
Proof.
  induction n as [|n IH]; [done|].
  cbn [poll_rounds]. unfold status_request. cbn [slept]. lia.
Qed.

Lemma waits_at_most_silent {A} (m : M A) :
  emits (λ e, ∀ seconds, e ≠ Sleep seconds) m → waits_at_most 0 m.
Proof.
  intros Hm w. destruct (Hm w) as (evs & Htrace & Hevs).
  exists evs. split; [done|].
  assert (slept evs = 0) as ->; [|lia].
  clear Htrace. induction Hevs as [|e evs He _ IH]; [done|].
  destruct e as [r|fr to query|seconds]; [exact IH|exact IH|].
  by destruct (He seconds).
Qed.

Lemma waits_at_most_weaken {A} (bound bound' : Z) (m : M A) :
  bound ≤ bound' → waits_at_most bound m → waits_at_most bound' m.
Proof.
  intros Hle Hm w. destruct (Hm w) as (evs & Htrace & Hevs).
  exists evs. split; [done|lia].
Qed.

Lemma waits_at_most_bind {A B} (bound1 bound2 : Z) (m : M A) (f : A → M B) :
  0 ≤ bound2 →
  waits_at_most bound1 m → (∀ a, waits_at_most bound2 (f a)) →
  waits_at_most (bound1 + bound2) (m ≫= f).
Proof.
  intros Hbound Hm Hf w. rewrite bind_run.
  destruct (Hm w) as (evs1 & Htrace1 & Hevs1).
  destruct (m w) as [[a|e] w1].
  - destruct (Hf a w1) as (evs2 & Htrace2 & Hevs2).
    exists (evs1 ++ evs2). rewrite slept_app. split; [|lia].
    rewrite Htrace2. cbn [snd] in Htrace1. by rewrite Htrace1, app_assoc.
  - exists evs1. split; [done|lia].
Qed.

Lemma waits_at_most_request {A} (r : request) (a : A) :
  waits_at_most 0 (_ ← log (Request r); mret a).
Proof. intros w. exists [Request r]. split; [done|]. cbn. lia. Qed.

Lemma waits_at_most_poll (svc : Service) (budget : nat) (sleep_time : Z)
    (ticket : list (string * string)) (repeat : bool) (tries : Z) :
  0 ≤ sleep_time →
  waits_at_most (Z.of_nat budget * sleep_time)
    (poll svc budget sleep_time ticket repeat tries).
Proof.
  intros Hsleep. revert repeat tries.
  induction budget as [|budget IH]; intros repeat tries.
  - intros w. exists []. rewrite app_nil_r. split; [done|]. cbn. lia.
  - cbn [poll]. destruct repeat.
    + replace (Z.of_nat (S budget) * sleep_time)
        with (0 + (0 + (sleep_time + Z.of_nat budget * sleep_time))) by lia.
      apply waits_at_most_bind; [lia| |intros job].
      { apply waits_at_most_silent, emits_lift. }
      apply waits_at_most_bind; [lia| |intros status].
      { intros w. rewrite get_status_run. eexists. split; [reflexivity|].
        cbn. lia. }
      apply waits_at_most_bind; [lia| |intros _; apply IH].
      intros w. exists [Sleep sleep_time]. split; [done|]. cbn. lia.
    + intros w. exists []. rewrite app_nil_r. split; [done|]. cbn. lia.
Qed.

Lemma waits_at_most_rest_for (K : Constants) (svc : Service)
    (input_string : string) (query_dbs : list string) (i : Z)
    (dummy_df : Pandas.DataFrame) :
  0 ≤ REQUESTS_SLEEP_TIME K →
  waits_at_most
    (Z.of_nat (length query_dbs)
     * (Z.of_nat (attempt_budget K) * REQUESTS_SLEEP_TIME K))
    (rest_for K svc input_string i query_dbs dummy_df).
Proof.
  intros Hsleep. revert i dummy_df.
  induction query_dbs as [|db query_dbs IH]; intros i dummy_df.
  - intros w. exists []. rewrite app_nil_r. split; [done|]. cbn. lia.
  - cbn [rest_for length].
    set (round := Z.of_nat (attempt_budget K) * REQUESTS_SLEEP_TIME K).
    assert (0 ≤ round) as Hround by (subst round; lia).
    set (others := Z.of_nat (length query_dbs) * round) in *.
    assert (0 ≤ others) as Hothers by (subst others; lia).
    replace (Z.of_nat (S (length query_dbs)) * round)
      with (0 + (round + (0 + (0 + (0 + others))))) by (subst others; lia).
    apply waits_at_most_bind; [lia|apply waits_at_most_request|].
    intros ticket.
    apply waits_at_most_bind; [lia|by apply waits_at_most_poll|].
    intros [repeat tries]. destruct (tries =? 10).
    { apply (waits_at_most_weaken 0); [lia|].
      apply waits_at_most_silent, emits_raise. }
    apply waits_at_most_bind; [lia| |intros job].
    { apply waits_at_most_silent, emits_lift. }
    apply waits_at_most_bind; [lia|apply waits_at_most_request|].
    intros results.
    apply waits_at_most_bind; [lia| |intros records].
    { apply waits_at_most_silent, emits_lift. }
    destruct (Pandas.len (Pandas.of_records records) =? 0); [apply IH|].
    destruct (i =? 0); apply IH.
Qed.

(** X10: a run of [map_refseqids_rest] sleeps, all in all, at most the
    number of databases times the number of polls the constants allow
    times the sleep time, however it ends: with the constants of the
    module, at most 300 seconds for each database. *)
Theorem worst_case_wait (K : Constants) (svc : Service)
    (input_file output_file : string) (query_dbs : list string)
    (return_full : bool) :
  0 ≤ REQUESTS_SLEEP_TIME K →
  waits_at_most
    (Z.of_nat (length query_dbs)
     * (Z.of_nat (attempt_budget K) * REQUESTS_SLEEP_TIME K))
    (map_refseqids_rest K svc input_file output_file query_dbs return_full).
Proof.
  intros Hsleep. unfold map_refseqids_rest.
  set (bound := Z.of_nat (length query_dbs)
                * (Z.of_nat (attempt_budget K) * REQUESTS_SLEEP_TIME K)).
  assert (0 ≤ bound) as Hbound by (subst bound; lia).
  replace bound with (0 + (bound + (0 + 0))) by lia.
  apply waits_at_most_bind; [lia| |intros input_lines].
  { apply waits_at_most_silent, emits_read_lines. }
  apply waits_at_most_bind; [lia|by apply waits_at_most_rest_for|].
  intros dummy_df.
  apply waits_at_most_bind; [lia| |intros _].
  { apply waits_at_most_silent, emits_write_unique_hits. }
  apply waits_at_most_silent, emits_ret.
Qed.

Lemma worst_case_wait_witness :
  waits_at_most 600
    (map_refseqids_rest module_constants
       (scenario_service never scenario_rows scenario_entries)
       "in.txt" "out.txt" DEFAULT_DBS false).
Proof.
  apply (worst_case_wait module_constants _ "in.txt" "out.txt" DEFAULT_DBS).
  cbn. lia.
Defined.

(** ** The submissions of a run *)

Lemma submissions_app (evs1 evs2 : list event) :
  submissions (evs1 ++ evs2) = submissions evs1 ++ submissions evs2.
Proof.
  induction evs1 as [|[r|fr to query|seconds] evs1 IH]; simpl; [done| |done..].
  destruct (req_method r); [done|]. by rewrite IH.
Qed.

Lemma submits_silent {A} (m : M A) :
  emits (λ e, submissions [e] = []) m → submits [] m.
Proof.
  intros Hm w. destruct (Hm w) as (evs & Htrace & Hevs).
  exists evs, 0%nat. split; [done|].
  assert (submissions evs = []) as ->; [|done].
  clear Htrace. induction Hevs as [|e evs He _ IH]; [done|].
  change (e :: evs) with ([e] ++ evs). by rewrite submissions_app, He, IH.
Qed.

Lemma submits_bind {A B} (forms1 forms2 : list (list (string * string)))
    (m : M A) (f : A → M B) :
  submits forms1 m → (∀ a, submits forms2 (f a)) →
  submits (forms1 ++ forms2) (m ≫= f).
Proof.
  intros Hm Hf w. rewrite bind_run.
  destruct (Hm w) as (evs1 & n1 & Htrace1 & Htake1 & Hall1).
  destruct (m w) as [[a|e] w1].
  - destruct (Hf a w1) as (evs2 & n2 & Htrace2 & Htake2 & Hall2).
    rewrite Hall1 in * by eauto.
    exists (evs1 ++ evs2), (length forms1 + n2)%nat.
    rewrite submissions_app, Hall1 by eauto. split; [|split].
    + rewrite Htrace2. cbn [snd] in Htrace1. by rewrite Htrace1, app_assoc.
    + by rewrite take_app_add, Htake2.
    + intros Hreturn. by rewrite Hall2.
  - exists evs1, (n1 `min` length forms1)%nat. split; [done|]. split.
    + rewrite Htake1, take_app_le by lia.
      destruct (Nat.le_ge_cases n1 (length forms1)).
      * by rewrite Nat.min_l.
      * by rewrite Nat.min_r, !take_ge.
    + by intros [b [=]].
Qed.

Lemma submits_post (svc : Service) (url : string)
    (data headers : list (string * string)) :
  submits [data] (post svc url data headers).
Proof.
  intros w. rewrite post_run. eexists _, 1%nat. split; [reflexivity|]. done.
Qed.

Lemma emits_poll_any (P : event → Prop) (svc : Service) (budget : nat)
    (sleep_time : Z) (ticket : list (string * string)) (repeat : bool)
    (tries : Z) :
  (∀ job, P (status_request job)) → P (Sleep sleep_time) →
  emits P (poll svc budget sleep_time ticket repeat tries).
Proof.
  intros Hstatus Hsleep. revert repeat tries.
  induction budget as [|budget IH]; intros repeat tries.
  - apply emits_ret.
  - cbn [poll]. destruct repeat; [|apply emits_ret].
    apply emits_bind; [apply emits_lift|]. intros job.
    apply emits_bind.
    { intros w. rewrite get_status_run. eexists. split; [reflexivity|].
      constructor; [apply Hstatus|done]. }
    intros status. apply emits_bind; [by apply emits_log|]. intros _. apply IH.
Qed.

Lemma submits_then {A B} (forms : list (list (string * string)))
    (m : M A) (f : A → M B) :
  emits (λ e, submissions [e] = []) m → (∀ a, submits forms (f a)) →
  submits forms (m ≫= f).
Proof.
  intros Hm Hf. apply (submits_bind [] forms); [by apply submits_silent|done].
Qed.

Lemma submits_raise {A} (forms : list (list (string * string))) (e : exn) :
  submits forms (raise e : M A).
Proof.
  intros w. exists [], 0%nat. rewrite app_nil_r. split; [done|].
  split; [done|]. by intros [a [=]].
Qed.

(** The loop over the databases posts one form for each database, in the
    order of the databases. *)
Lemma submits_rest_for (K : Constants) (svc : Service)
    (input_string : string) (query_dbs : list string) (i : Z)
    (dummy_df : Pandas.DataFrame) :
  submits (run_form input_string <$> query_dbs)
    (rest_for K svc input_string i query_dbs dummy_df).
Proof.
  revert i dummy_df. induction query_dbs as [|db query_dbs IH]; intros i dummy_df.
  - apply submits_silent, emits_ret.
  - cbn [rest_for].
    apply (submits_bind [run_form input_string db]
             (@fmap list list_fmap _ _ (run_form input_string) query_dbs));
      [apply submits_post|].
    intros ticket. apply submits_then; [by apply emits_poll_any|].
    intros [repeat tries]. destruct (tries =? 10); [apply submits_raise|].
    apply submits_then; [apply emits_lift|]. intros job.
    apply submits_then.
    { intros w. rewrite get_stream_run.
      eexists. split; [reflexivity|]. by constructor. }
    intros results. apply submits_then; [apply emits_lift|]. intros records.
    destruct (Pandas.len (Pandas.of_records records) =? 0); [apply IH|].
    destruct (i =? 0); apply IH.
Qed.

(** X11: a run of [map_refseqids_rest] posts one form for each configured
    database, in the configured order: the form names the database as the
    source and UniProtKB as the target, and carries the distinct lines of
    the input file, joined by commas, the same in every form. A database
    named twice is submitted twice. A run that ends with an exception has
    posted the forms of the first databases only. *)
Theorem one_submission_per_database (K : Constants) (svc : Service)
    (input_file output_file text : string) (query_dbs : list string)
    (return_full : bool) (w : World) :
  let input_string :=
    Py.join "," (Py.list_set (Py.splitlines (Py.universal_newlines text))) in
  let forms :=
    (λ db, [("ids", input_string); ("from", db); ("to", "UniProtKB")])
      <$> query_dbs in
  let run := map_refseqids_rest K svc input_file output_file query_dbs
               return_full w in
  files w !! input_file = Some text →
  ∃ evs n,
    trace (snd run) = trace w ++ evs
    ∧ submissions evs = take n forms
    ∧ ((∃ r, fst run = Return r) → submissions evs = forms).
Proof.
  intros input_string forms run Hfile. subst run.
  unfold map_refseqids_rest.
  rewrite bind_run, (read_lines_file _ text) by done. fold input_string.
  assert (submits (forms ++ [])
            (dummy_df ← rest_for K svc input_string 0 query_dbs Pandas.empty;
             _ ← write_unique_hits "to" output_file dummy_df;
             mret (if return_full then Some dummy_df else None))) as Hrun.
  { apply submits_bind; [apply submits_rest_for|]. intros dummy_df.
    apply submits_then; [apply emits_write_unique_hits|]. intros _.
    apply submits_silent, emits_ret. }
  rewrite app_nil_r in Hrun. apply Hrun.
Qed.

Lemma one_submission_per_database_witness :
  let svc := job_service first_job_only scenario_rows in
  let run := map_refseqids_rest module_constants svc "in.txt" "out.txt"
               ["db1"; "db2"; "db3"] false scenario_world in
  let input_string :=
    Py.join ","
      (Py.list_set
         (Py.splitlines (Py.universal_newlines (lines_text scenario_lines)))) in
  let forms :=
    (λ db, [("ids", input_string); ("from", db); ("to", "UniProtKB")])
      <$> ["db1"; "db2"; "db3"] in
  ∃ evs n,
    trace (snd run) = trace scenario_world ++ evs
    ∧ submissions evs = take n forms
    ∧ ((∃ r, fst run = Return r) → submissions evs = forms).
Proof.
  intros svc run input_string forms.
  apply (one_submission_per_database module_constants svc "in.txt" "out.txt"
           (lines_text scenario_lines) ["db1"; "db2"; "db3"] false
           scenario_world).
  reflexivity.
Defined.

(** ** The aggregate table, row by row *)

Lemma merged_app (i : Z) (dummy_df results_df : Pandas.DataFrame) :
  (i = 0 → dummy_df = Pandas.empty) →
  merged i dummy_df results_df = dummy_df ++ results_df.
Proof.
  intros Hfirst. unfold merged, Pandas.len, Py.len, Pandas.concat.
  destruct results_df as [|row results_df].
  { cbn. by rewrite app_nil_r. }
  rewrite (proj2 (Z.eqb_neq _ _)) by (simpl; lia).
  destruct (Z.eqb_spec i 0) as [Hi|_]; [|done]. by rewrite (Hfirst Hi).
Qed.

Lemma rest_for_rows (K : Constants) (svc : Service) (input_string : string)
    (query_dbs : list string) :
  ∀ (i : Z) (dummy_df df : Pandas.DataFrame) (w w' : World),
    0 ≤ i →
    (i = 0 → dummy_df = Pandas.empty) →
    rest_for K svc input_string i query_dbs dummy_df w = (Return df, w') →
    df = dummy_df ++ concat (mapping_result svc input_string <$> query_dbs).
Proof.
  induction query_dbs as [|db query_dbs IH];
    intros i dummy_df df w w' Hi Hfirst Hrun.
  - cbn in Hrun. injection Hrun as <- _. cbn. by rewrite app_nil_r.
  - cbn [rest_for] in Hrun. rewrite bind_run, post_run in Hrun.
    fold run_url in Hrun. fold (run_form input_string db) in Hrun.
    rewrite bind_run in Hrun.
    destruct (while_poll _ _ _ _ _ _ _) as [[[repeat tries]|e] w1]; [|done].
    destruct (tries =? 10); [done|].
    rewrite bind_run in Hrun. unfold lift at 1 in Hrun.
    cbn [fmap list_fmap concat]. unfold mapping_result at 1.
    destruct (subscript _ "jobId") as [job|e]; [|done].
    rewrite bind_run, get_stream_run in Hrun. fold (stream_url job) in Hrun.
    destruct (stream_answer svc (stream_url job)) as [records|]; [|done].
    rewrite bind_run in Hrun. unfold lift at 1 in Hrun.
    cbn [results_of default] in *.
    assert (rest_for K svc input_string (i + 1) query_dbs
              (merged i dummy_df (Pandas.of_records records))
              (logged w1 [stream_request job]) = (Return df, w')) as Hrest.
    { rewrite <-Hrun. unfold merged.
      destruct (Pandas.len (Pandas.of_records records) =? 0); [done|].
      by destruct (i =? 0). }
    apply IH in Hrest; [|lia|intros ?; lia].
    rewrite Hrest, merged_app by done. unfold Pandas.of_records.
    by rewrite app_assoc.
Qed.

(** X12: the table that the loop over the databases of
    [map_refseqids_rest] returns holds the rows of the mapping results of
    the configured databases, in the order of the databases and, within a
    database, in the order of its result; no row is lost, none is added,
    and a database named twice gives its rows twice. *)
Theorem aggregate_in_database_order (K : Constants) (svc : Service)
    (input_string : string) (query_dbs : list string)
    (w w' : World) (dummy_df : Pandas.DataFrame) :
  rest_for K svc input_string 0 query_dbs Pandas.empty w
  = (Return dummy_df, w') →
  dummy_df = concat (mapping_result svc input_string <$> query_dbs).
Proof.
  intros Hrun. by apply rest_for_rows in Hrun as ->.
Qed.

Lemma aggregate_in_database_order_witness :
  let svc := scenario_service always scenario_rows scenario_entries in
  let query_dbs := ["db0"; "db1"; "db2"; "db1"] in
  let run := rest_for module_constants svc "P12345,Q9Y6K9" 0 query_dbs
               Pandas.empty scenario_world in
  match fst run with
  | Return dummy_df => dummy_df
  | Raise _ => []
  end
  = concat (mapping_result svc "P12345,Q9Y6K9" <$> query_dbs).
Proof.
  intros svc query_dbs run.
  apply (aggregate_in_database_order module_constants svc "P12345,Q9Y6K9"
           query_dbs scenario_world (snd run)).
  vm_compute. reflexivity.
Defined.

(** ** The loop of bioservices *)

Lemma bioservices_for_rows (svc : Service) (ids : list string)
    (rows : string → list Pandas.record) (query_dbs : list string) :
  ∀ (i : Z) (dummy_df : Pandas.DataFrame) (w : World),
    0 ≤ i →
    (i = 0 → dummy_df = Pandas.empty) →
    (∀ db, db ∈ query_dbs →
           mapping_answer svc db "UniProtKB" (Py.join "," ids)
           = Some (rows db)) →
    bioservices_for svc ids i query_dbs dummy_df w
    = (Return (dummy_df
               ++ concat ((λ db, Pandas.json_normalize (rows db))
                            <$> query_dbs)),
       logged w ((λ db, Mapping db "UniProtKB" (Py.join "," ids))
                   <$> query_dbs)).
Proof.
  induction query_dbs as [|db query_dbs IH]; intros i dummy_df w Hi Hfirst Hsvc.
  - cbn. by rewrite app_nil_r, logged_nil.
  - rewrite (bioservices_for_round svc ids i db query_dbs dummy_df (rows db))
      by (apply Hsvc; left).
    rewrite IH; [|lia|intros ?; lia|intros db' Hdb'; apply Hsvc; by right].
    rewrite merged_app, logged_logged by done.
    cbn [fmap list_fmap concat app]. by rewrite app_assoc.
Qed.

(** X13: [map_refseqids_bioservices] queries each configured database
    once, in the configured order, from that database to UniProtKB and
    with the same comma-joined identifiers; the table it collects holds
    the flattened entries of all answers in that order; it makes no other
    call and changes no file on the way. *)
Theorem bioservices_queries_each_database (svc : Service) (ids : list string)
    (rows : string → list Pandas.record) (query_dbs : list string)
    (w : World) :
  (∀ db, db ∈ query_dbs →
         mapping_answer svc db "UniProtKB" (Py.join "," ids)
         = Some (rows db)) →
  bioservices_for svc ids 0 query_dbs Pandas.empty w
  = (Return (concat ((λ db, Pandas.json_normalize (rows db)) <$> query_dbs)),
     logged w ((λ db, Mapping db "UniProtKB" (Py.join "," ids))
                 <$> query_dbs)).
Proof.
  intros Hsvc.
  by rewrite (bioservices_for_rows svc ids rows query_dbs 0 Pandas.empty w).
Qed.

Lemma bioservices_queries_each_database_witness :
  let svc := scenario_service always scenario_rows scenario_entries in
  let ids := ["P12345"; "P12345"; "Q9Y6K9"] in
  let query_dbs := ["db0"; "db1"; "db1"] in
  bioservices_for svc ids 0 query_dbs Pandas.empty scenario_world
  = (Return (concat ((λ db, Pandas.json_normalize (scenario_entries db))
                       <$> query_dbs)),
     logged scenario_world
       ((λ db, Mapping db "UniProtKB" (Py.join "," ids)) <$> query_dbs)).
Proof.
  intros svc ids query_dbs.
  apply (bioservices_queries_each_database svc ids scenario_entries query_dbs).
  intros db _. reflexivity.
Defined.

(** ** The cap of bioservices *)

Lemma capped_slice {A} (l : list A) :
  (if Py.len l >? 100000 then Py.slice_to 100000 l else l)
  = Py.slice_to 100000 l.
Proof.
  unfold Py.len, Py.slice_to.
  destruct (Z.gtb_spec (Z.of_nat (length l)) 100000) as [|Hle]; [done|].
  rewrite take_ge; [done|lia].
Qed.

Lemma emits_bioservices_for (P : event → Prop) (svc : Service)
    (ids : list string) (query_dbs : list string) :
  (∀ db, P (Mapping db "UniProtKB" (Py.join "," ids))) →
  ∀ (i : Z) (dummy_df : Pandas.DataFrame),
    emits P (bioservices_for svc ids i query_dbs dummy_df).
Proof.
  intros HP. induction query_dbs as [|db query_dbs IH]; intros i dummy_df.
  - apply emits_ret.
  - cbn [bioservices_for]. apply emits_bind.
    { intros w. rewrite u_mapping_run. eexists. split; [reflexivity|].
      constructor; [apply HP|done]. }
    intros results. apply emits_bind; [apply emits_lift|]. intros records.
    destruct (Pandas.len (Pandas.json_normalize records) =? 0); [apply IH|].
    destruct (i =? 0); apply IH.
Qed.

(** X14: whatever the input file holds, every query that
    [map_refseqids_bioservices] hands to bioservices joins the first
    100,000 lines of the file, or all lines when there are fewer, in the
    order of the file and with its repetitions and empty lines. *)
Theorem bioservices_query_is_capped (svc : Service)
    (input_file output_file text : string) (query_dbs : list string)
    (return_full : bool) (w : World) :
  files w !! input_file = Some text →
  let lines := Py.splitlines (Py.universal_newlines text) in
  ∃ evs,
    trace (snd (map_refseqids_bioservices svc input_file output_file
                  query_dbs return_full w))
    = trace w ++ evs
    ∧ Forall (λ e, ∃ db,
                e = Mapping db "UniProtKB"
                      (Py.join "," (take (Z.to_nat 100000) lines))) evs.
Proof.
  intros Hfile lines. unfold map_refseqids_bioservices.
  rewrite bind_run, (read_lines_file _ text) by done. fold lines.
  rewrite capped_slice. unfold Py.slice_to.
  set (P := λ e, ∃ db, e = Mapping db "UniProtKB"
                             (Py.join "," (take (Z.to_nat 100000) lines))).
  assert (emits P
            (dummy_df ← bioservices_for svc (take (Z.to_nat 100000) lines) 0
                          query_dbs Pandas.empty;
             _ ← write_unique_hits "to.primaryAccession" output_file dummy_df;
             mret (if return_full then Some dummy_df else None))) as Hemits.
  { apply emits_bind.
    { apply emits_bioservices_for. intros db. by exists db. }
    intros dummy_df. apply emits_bind; [apply emits_write_unique_hits|].
    intros _. apply emits_ret. }
  apply Hemits.
Qed.

Lemma bioservices_query_is_capped_witness :
  let svc := scenario_service always scenario_rows scenario_entries in
  ∃ evs,
    trace (snd (map_refseqids_bioservices svc "in.txt" "out.txt"
                  ["db1"; "db2"] false scenario_world))
    = trace scenario_world ++ evs
    ∧ Forall (λ e, ∃ db,
                e = Mapping db "UniProtKB"
                      (Py.join ","
                         (take (Z.to_nat 100000)
                            (Py.splitlines
                               (Py.universal_newlines
                                  (lines_text scenario_lines)))))) evs.
Proof.
  intros svc.
  apply (bioservices_query_is_capped svc "in.txt" "out.txt"
           (lines_text scenario_lines) ["db1"; "db2"] false scenario_world).
  reflexivity.
Defined.

(** ** The output of bioservices, end to end *)

Lemma elem_of_mapped_accessions (pairs : string → list (string * string))
    (query_dbs : list string) (a : string) :
  a ∈ snd <$> concat (pairs <$> query_dbs)
  ↔ ∃ db from, db ∈ query_dbs ∧ (from, a) ∈ pairs db.
Proof.
  induction query_dbs as [|db' query_dbs IH].
  - cbn. split; [by intros ?%elem_of_nil|].
    by intros (db & from & ?%elem_of_nil & _).
  - cbn [fmap list_fmap concat]. rewrite fmap_app, elem_of_app, IH.
    rewrite list_elem_of_fmap. split.
    + intros [([from a'] & -> & Hin)|(db & from & Hdb & Hin)].
      * exists db', from. split; [left|done].
      * exists db, from. split; [by right|done].
    + intros (db & from & [->|Hdb]%elem_of_cons & Hin).
      * left. by exists (from, a).
      * right. by exists db, from.
Qed.

(** X15: when bioservices answers every configured database with mapping
    pairs and at least one pair comes back, [map_refseqids_bioservices]
    replaces the output file by the mapped accessions, one per line, each
    accession once and no other line; it returns the table of all pairs
    when [return_full] is set and nothing otherwise. *)
Theorem bioservices_output (svc : Service)
    (pairs : string → list (string * string))
    (input_file output_file text : string) (query_dbs : list string)
    (return_full : bool) (w : World) :
  let lines := Py.splitlines (Py.universal_newlines text) in
  let all := concat (pairs <$> query_dbs) in
  files w !! input_file = Some text →
  Forall (bioservices_serves svc pairs
            (if Py.len lines >? 100000 then Py.slice_to 100000 lines
             else lines))
         query_dbs →
  all ≠ [] →
  ∃ hits w',
    map_refseqids_bioservices svc input_file output_file query_dbs
      return_full w
    = (Return (if return_full then Some (flat_rows all) else None), w')
    ∧ files w' = <[output_file := lines_text hits]> (files w)
    ∧ NoDup hits
    ∧ ∀ a, a ∈ hits ↔ ∃ db from, db ∈ query_dbs ∧ (from, a) ∈ pairs db.
Proof.
  intros lines all Hfile Hserves Hall.
  destruct (bioservices_for_pairs svc pairs _ query_dbs 0 [] w Hserves)
    as (w1 & Hrun & Hfiles); [done..|].
  cbn [app] in Hrun. fold all in Hrun.
  exists (Pandas.unique_from [] (snd <$> all)). eexists. split; [|split; [|split]].
  - apply (map_refseqids_bioservices_run svc input_file output_file text
             query_dbs return_full w w1 (flat_rows all) (snd <$> all));
      [done|exact Hrun|by apply getitem_flat_rows].
  - cbn [files]. by rewrite Hfiles.
  - apply unique_from_NoDup.
  - intros a. rewrite unique_from_elem_of, <-elem_of_mapped_accessions.
    set_solver.
Qed.

Lemma bioservices_output_witness :
  let svc := scenario_service always scenario_rows scenario_entries in
  let pairs := λ db : string,
    if String.eqb db "db1"
    then [("P12345", "A0A000"); ("Q9Y6K9", "A0A001")] else [] in
  ∃ hits w',
    map_refseqids_bioservices svc "in.txt" "out.txt" ["db1"; "db2"] true
      scenario_world
    = (Return (Some (flat_rows (concat (pairs <$> ["db1"; "db2"])))), w')
    ∧ files w' = <["out.txt" := lines_text hits]> (files scenario_world)
    ∧ NoDup hits
    ∧ ∀ a, a ∈ hits
           ↔ ∃ db from, db ∈ ["db1"; "db2"] ∧ (from, a) ∈ pairs db.
Proof.
  intros svc pairs.
  apply (bioservices_output svc pairs "in.txt" "out.txt"
           (lines_text scenario_lines) ["db1"; "db2"] true scenario_world);
    [reflexivity| |done].
  repeat constructor.
Defined.

(** X16: when the service hands both back ends the same mapping pairs for
    every configured database, each in the shape of the back end, and
    every job is ready within nine polls, the two back ends leave the same
    files: the same output file, or none when no database maps
    anything. *)
Theorem backends_leave_same_files (svc : Service)
    (pairs : string → list (string * string))
    (input_file output_file text : string) (query_dbs : list string)
    (w : World) :
  let lines := Py.splitlines (Py.universal_newlines text) in
  files w !! input_file = Some text →
  Forall (rest_serves svc pairs (Py.join "," (Py.list_set lines))) query_dbs →
  Forall (bioservices_serves svc pairs
            (if Py.len lines >? 100000 then Py.slice_to 100000 lines
             else lines))
         query_dbs →
  files (snd (map_refseqids_rest module_constants svc input_file output_file
                query_dbs false w))
  = files (snd (map_refseqids_bioservices svc input_file output_file
                  query_dbs false w)).
Proof. apply backends_agree_on_same_data. Qed.

Lemma backends_leave_same_files_witness :
  let svc := scenario_service (λ n, (2 <=? n)%nat) scenario_rows
               scenario_entries in
  files (snd (map_refseqids_rest module_constants svc "in.txt" "out.txt"
                ["db1"; "db2"] false scenario_world))
  = files (snd (map_refseqids_bioservices svc "in.txt" "out.txt"
                  ["db1"; "db2"] false scenario_world)).
Proof.
  intros svc.
  apply (backends_leave_same_files svc
           (λ db, if String.eqb db "db1"
                  then [("P12345", "A0A000"); ("Q9Y6K9", "A0A001")] else [])
           "in.txt" "out.txt" (lines_text scenario_lines) ["db1"; "db2"]
           scenario_world); [reflexivity| |repeat constructor].
  repeat constructor.
  - exists "job-db1", 2%nat. split; [vm_compute; reflexivity|].
    split; [lia|]. split; [|reflexivity]. intros n.
    unfold ready_at, svc, scenario_service. cbn [status_answer].
    by destruct (2 <=? n)%nat.
  - exists "job-db2", 2%nat. split; [vm_compute; reflexivity|].
    split; [lia|]. split; [|reflexivity]. intros n.
    unfold ready_at, svc, scenario_service. cbn [status_answer].
    by destruct (2 <=? n)%nat.
Defined.

(** ** The output writer on cells that are not strings *)

(** X17: when a cell of the column holds an object (a [dict], as when the
    stream gives whole entries under ["to"]), [unique] cannot hash it:
    the writer ends with TypeError before the output file is opened, so
    no file is created or changed. *)
Theorem unhashable_cell_writes_nothing (column output_file : string)
    (dummy_df : Pandas.DataFrame) (cells : list Pandas.cell)
    (fields : list (string * Pandas.json)) (w : World) :
  Pandas.getitem dummy_df column = Return cells →
  Some (Pandas.JObj fields) ∈ cells →
  write_unique_hits column output_file dummy_df w = (Raise TypeError, w).
Proof.
  intros Hcolumn Hcell. unfold write_unique_hits.
  rewrite bind_run. unfold lift at 1. rewrite Hcolumn.
  rewrite bind_run. unfold lift at 1, Pandas.unique.
  rewrite mapM_None_2; [done|]. apply Exists_exists. by eexists.
Qed.

Lemma unhashable_cell_writes_nothing_witness :
  write_unique_hits "to" "out.txt"
    [bioservices_pair "P12345" "A0A000"] scenario_world
  = (Raise TypeError, scenario_world).
Proof.
  apply (unhashable_cell_writes_nothing "to" "out.txt" _
           [Some (Pandas.JObj [("primaryAccession", Pandas.JStr "A0A000")])]
           [("primaryAccession", Pandas.JStr "A0A000")]);
    [reflexivity|by left].
Defined.

Lemma unique_from_app {A} `{EqDecision A} (seen l1 l2 : list A) :
  Pandas.unique_from seen (l1 ++ l2)
  = Pandas.unique_from seen l1 ++ Pandas.unique_from (rev l1 ++ seen) l2.
Proof.
  revert seen. induction l1 as [|x l1 IH]; intros seen; [done|].
  cbn [app Pandas.unique_from rev]. case_bool_decide as Hx.
  - rewrite IH. f_equal. revert Hx. generalize (rev l1). clear.
    intros k Hx. revert seen k Hx.
    induction l2 as [|y l2 IH]; intros seen k Hx; [done|]. simpl.
    rewrite (bool_decide_ext (y ∈ k ++ seen) (y ∈ (k ++ [x]) ++ seen))
      by set_solver.
    case_bool_decide; [by apply IH|].
    f_equal. by apply (IH seen (y :: k)).
  - rewrite IH. cbn [app]. f_equal. by rewrite <-app_assoc.
Qed.

Lemma writelines_gap (path text : string) (hits : list string)
    (tl : list (option string)) (w : World) :
  files w !! path = Some text →
  writelines path ((Some <$> hits) ++ None :: tl) w
  = (Raise TypeError,
     {| files := <[path := text +:+ lines_text hits]> (files w);
        trace := trace w |}).
Proof.
  revert text w. induction hits as [|hit hits IH]; intros text w Hpath.
  - simpl. rewrite string_app_nil_r, insert_id by done. by destruct w.
  - cbn [fmap list_fmap app writelines lines_text].
    rewrite bind_run. unfold append_text at 1.
    erewrite IH by apply lookup_insert_eq. cbn [files trace].
    rewrite Hpath. cbn [default].
    by rewrite insert_insert_eq, !string_app_assoc.
Qed.

(** X18: when the cells of the column are strings up to a first gap (NaN:
    a row that has no value in the column), the output file is replaced
    by the unique accessions that precede the gap and the writer then ends
    with TypeError: the file is left truncated, without the accessions
    that follow the gap. *)
Theorem gap_truncates_output (column output_file : string)
    (dummy_df : Pandas.DataFrame) (accessions : list string)
    (rest : list Pandas.cell) (w : World) :
  Pandas.getitem dummy_df column
  = Return (string_cells accessions ++ None :: rest) →
  Forall (λ c, ∀ fields, c ≠ Some (Pandas.JObj fields)) rest →
  write_unique_hits column output_file dummy_df w
  = (Raise TypeError,
     {| files := <[output_file
                   := lines_text (Pandas.unique_from [] accessions)]>
                   (files w);
        trace := trace w |}).
Proof.
  intros Hcolumn Hrest. unfold write_unique_hits.
  rewrite bind_run. unfold lift at 1. rewrite Hcolumn.
  rewrite bind_run. unfold lift at 1, Pandas.unique.
  destruct (mapM_is_Some_2 Pandas.hashable rest) as [vs Hvs].
  { eapply Forall_impl; [exact Hrest|]. intros [[s|fields]|] Hc; cbn; [eauto| |eauto].
    by destruct (Hc fields). }
  rewrite (proj2 (mapM_Some Pandas.hashable _
                    ((Some <$> accessions) ++ None :: vs))).
  2:{ apply Forall2_app.
      - apply mapM_Some_1, mapM_hashable_strings.
      - constructor; [done|]. by apply mapM_Some_1. }
  rewrite unique_from_app.
  replace (Pandas.unique_from [] (Some <$> accessions))
    with (Some <$> Pandas.unique_from [] accessions)
    by (symmetry; apply (unique_from_fmap Some [])).
  cbn [Pandas.unique_from].
  rewrite bool_decide_eq_false_2.
  2:{ intros Hin. apply elem_of_app in Hin as [Hin|Hin]; [|by inversion Hin].
      apply list_elem_of_In, in_rev, list_elem_of_In in Hin.
      by apply list_elem_of_fmap in Hin as (? & [=] & _). }
  unfold save_hits. rewrite bind_run. unfold open_truncate at 1.
  erewrite writelines_gap by apply lookup_insert_eq. cbn [files trace].
  by rewrite insert_insert_eq, string_app_nil_l.
Qed.

Lemma gap_truncates_output_witness :
  write_unique_hits "to" "out.txt"
    [rest_pair "P1" "B"; rest_pair "P2" "B"; [("from", Pandas.JStr "P3")];
     rest_pair "P4" "A"]
    scenario_world
  = (Raise TypeError,
     {| files := <["out.txt" := lines_text (Pandas.unique_from [] ["B"; "B"])]>
                   (files scenario_world);
        trace := trace scenario_world |}).
Proof.
  apply (gap_truncates_output "to" "out.txt" _ ["B"; "B"]
           [Some (Pandas.JStr "A")]); [reflexivity|].
  repeat constructor. discriminate.
Defined.

(** ** The returned table and the written file *)

Lemma writelines_returns (path : string) (hits : list (option string))
    (w w' : World) :
  writelines path hits w = (Return (), w') →
  ∃ accessions, hits = Some <$> accessions.
Proof.
  revert w. induction hits as [|[hit|] hits IH]; intros w Hrun.
  - by exists [].
  - cbn [writelines] in Hrun. rewrite bind_run in Hrun.
    unfold append_text at 1 in Hrun. apply IH in Hrun as [accessions ->].
    by exists (hit :: accessions).
  - done.
Qed.

Lemma write_unique_hits_returns (column output_file : string)
    (dummy_df : Pandas.DataFrame) (w w' : World) :
  write_unique_hits column output_file dummy_df w = (Return (), w') →
  ∃ cells accessions,
    Pandas.getitem dummy_df column = Return cells
    ∧ Pandas.unique cells = Return (Some <$> accessions)
    ∧ w' = {| files := <[output_file := lines_text accessions]> (files w);
              trace := trace w |}.
Proof.
  unfold write_unique_hits. rewrite bind_run. unfold lift at 1.
  destruct (Pandas.getitem dummy_df column) as [cells|e] eqn:Hcells; [|done].
  rewrite bind_run. unfold lift at 1.
  destruct (Pandas.unique cells) as [hits|e] eqn:Hunique; [|done].
  intros Hsave.
  assert (∃ accessions, hits = Some <$> accessions) as [accessions ->].
  { unfold save_hits in Hsave. rewrite bind_run in Hsave.
    unfold open_truncate at 1 in Hsave. by apply writelines_returns in Hsave. }
  rewrite save_hits_some in Hsave. injection Hsave as <-.
  by exists cells, accessions.
Qed.

(** X19: whenever a run of [map_refseqids_rest] returns, the output file
    holds, one per line, the unique values of the ["to"] column of the
    table that joins the mapping results of the configured databases in
    their order, and these values are all strings; the run returns that
    table when [return_full] is set and nothing otherwise. *)
Theorem returned_table_matches_file (K : Constants) (svc : Service)
    (input_file output_file text : string) (query_dbs : list string)
    (return_full : bool) (w w' : World) (r : option Pandas.DataFrame) :
  let input_string :=
    Py.join "," (Py.list_set (Py.splitlines (Py.universal_newlines text))) in
  let dummy_df := concat (mapping_result svc input_string <$> query_dbs) in
  files w !! input_file = Some text →
  map_refseqids_rest K svc input_file output_file query_dbs return_full w
  = (Return r, w') →
  r = (if return_full then Some dummy_df else None)
  ∧ ∃ cells accessions,
      Pandas.getitem dummy_df "to" = Return cells
      ∧ Pandas.unique cells = Return (Some <$> accessions)
      ∧ files w' !! output_file = Some (lines_text accessions).
Proof.
  intros input_string dummy_df Hfile Hrun. unfold map_refseqids_rest in Hrun.
  rewrite bind_run, (read_lines_file _ text) in Hrun by done.
  fold input_string in Hrun. rewrite bind_run in Hrun.
  destruct (rest_for K svc input_string 0 query_dbs Pandas.empty w)
    as [[df|e] w1] eqn:Hloop; [|done].
  apply rest_for_rows in Hloop; [|done..].
  unfold Pandas.empty in Hloop. cbn [app] in Hloop.
  fold dummy_df in Hloop. subst df. rewrite bind_run in Hrun.
  destruct (write_unique_hits "to" output_file dummy_df w1)
    as [[[]|e] w2] eqn:Hwrite; [|done].
  apply write_unique_hits_returns in Hwrite
    as (cells & accessions & Hcells & Hunique & ->).
  rewrite ret_run in Hrun. injection Hrun as <- <-. split; [done|].
  exists cells, accessions. split; [done|]. split; [done|].
  apply lookup_insert_eq.
Qed.

Lemma returned_table_matches_file_witness :
  let svc := scenario_service always scenario_rows scenario_entries in
  let input_string :=
    Py.join ","
      (Py.list_set
         (Py.splitlines (Py.universal_newlines (lines_text scenario_lines)))) in
  let dummy_df :=
    concat (mapping_result svc input_string <$> ["db1"; "db2"]) in
  let run := map_refseqids_rest module_constants svc "in.txt" "out.txt"
               ["db1"; "db2"] true scenario_world in
  Some dummy_df = Some dummy_df
  ∧ ∃ cells accessions,
      Pandas.getitem dummy_df "to" = Return cells
      ∧ Pandas.unique cells = Return (Some <$> accessions)
      ∧ files (snd run) !! "out.txt" = Some (lines_text accessions).
Proof.
  intros svc input_string dummy_df run.
  apply (returned_table_matches_file module_constants svc "in.txt" "out.txt"
           (lines_text scenario_lines) ["db1"; "db2"] true scenario_world
           (snd run) (Some dummy_df)); [reflexivity|].
  vm_compute. reflexivity.
Defined.

(** ** The entry point *)

(** X20: [main] runs bioservices exactly when the service named on the
    command line is ["bioservices"], letter for letter; under every other
    name it runs the REST back end. So a run under ["bioservices"] makes
    no request of its own and never sleeps, and a run under any other
    name never calls bioservices and makes only the requests of
    [map_refseqids_rest], with their headers. *)
Theorem main_dispatch (K : Constants) (svc : Service) (args : Namespace) :
  emits (if String.eqb (service args) "bioservices" then mapping_event
         else rest_event)
        (main K svc args).
Proof.
  unfold main. destruct (String.eqb (service args) "bioservices").
  - apply emits_bind; [|intros _; apply emits_ret].
    unfold map_refseqids_bioservices.
    apply emits_bind; [apply emits_read_lines|]. intros ids.
    apply emits_bind; [by apply emits_bioservices_for|]. intros dummy_df.
    apply emits_bind; [apply emits_write_unique_hits|]. intros _.
    apply emits_ret.
  - apply emits_bind; [apply rest_requests|]. intros _. apply emits_ret.
Qed.

(** ** The line ends of the input file *)

Lemma splitlines_from_free (cur s : string) :
  free_of_linebreaks s = true →
  Py.splitlines_from cur s
  = if String.eqb (cur +:+ s) "" then [] else [cur +:+ s].
Proof.
  revert cur. induction s as [|c s IH]; intros cur Hfree.
  - by rewrite string_app_nil_r.
  - simpl in Hfree. apply andb_true_iff in Hfree as [Hc Hs].
    apply negb_true_iff in Hc. simpl. rewrite Hc, IH by done.
    by rewrite string_app_snoc.
Qed.

Lemma splitlines_from_ended (line cur ending rest : string) :
  free_of_linebreaks line = true →
  ending = Py.nl ∨ ending = crlf
  ∨ (ending = String Py.CR "" ∧ ∀ rest', rest ≠ String Py.LF rest') →
  Py.splitlines_from cur (line +:+ ending +:+ rest)
  = (cur +:+ line) :: Py.splitlines_from "" rest.
Proof.
  intros Hfree Hending. revert cur Hfree.
  induction line as [|c line IH]; intros cur Hfree.
  - rewrite string_app_nil_r, string_app_nil_l.
    destruct Hending as [->|[->|[-> Hrest]]]; [done|done|].
    rewrite string_app_cons, string_app_nil_l.
    cbn [Py.splitlines_from].
    replace (Py.is_linebreak Py.CR) with true by reflexivity.
    rewrite Ascii.eqb_refl. destruct rest as [|c' rest']; [done|].
    destruct (Ascii.eqb_spec c' Py.LF) as [->|]; [|done].
    by destruct (Hrest rest').
  - simpl in Hfree. apply andb_true_iff in Hfree as [Hc Hline].
    apply negb_true_iff in Hc. rewrite string_app_cons. simpl. rewrite Hc.
    rewrite IH by done. by rewrite string_app_snoc.
Qed.

Lemma text_with_no_leading_LF (ending last : string) (l : list string) :
  ending = String Py.CR "" →
  Forall (λ line, free_of_linebreaks line = true) l →
  free_of_linebreaks last = true →
  ∀ rest', text_with ending l +:+ last ≠ String Py.LF rest'.
Proof.
  intros -> Hl Hlast rest'. destruct Hl as [|line l Hline _].
  - rewrite string_app_nil_l. destruct last as [|c last]; [done|].
    intros [= -> _]. done.
  - cbn [text_with]. destruct line as [|c line].
    + rewrite string_app_nil_l. discriminate.
    + rewrite !string_app_cons. intros [= -> _]. done.
Qed.

Lemma splitlines_text_with (ending last : string) (l : list string) :
  ending ∈ [Py.nl; crlf; String Py.CR ""] →
  Forall (λ line, free_of_linebreaks line = true) l →
  free_of_linebreaks last = true →
  Py.splitlines (text_with ending l +:+ last)
  = l ++ (if String.eqb last "" then [] else [last]).
Proof.
  intros Hending Hl Hlast. unfold Py.splitlines.
  induction Hl as [|line l Hline Hl IH].
  - rewrite string_app_nil_l. by rewrite splitlines_from_free.
  - cbn [text_with app]. rewrite !string_app_assoc.
    rewrite splitlines_from_ended, IH; [done|done|].
    apply elem_of_cons in Hending as [->|Hending]; [by left|].
    apply elem_of_cons in Hending as [->|Hending]; [by right; left|].
    apply list_elem_of_singleton in Hending as ->. right; right.
    split; [done|]. by apply text_with_no_leading_LF.
Qed.

(** X21: the input file may end its lines with \n, with \r\n or with \r,
    and may or may not end its last line: the identifiers read are the
    same. Empty lines are kept as empty identifiers. *)
Theorem input_line_endings (input_file ending last : string)
    (l : list string) (w : World) :
  ending ∈ [Py.nl; crlf; String Py.CR ""] →
  Forall (λ line, free_of_linebreaks line = true) l →
  free_of_linebreaks last = true →
  files w !! input_file = Some (text_with ending l +:+ last) →
  read_lines input_file w
  = (Return (l ++ (if String.eqb last "" then [] else [last])), w).
Proof.
  intros Hending Hl Hlast Hfile.
  rewrite (read_lines_file _ _ _ Hfile), splitlines_universal_newlines.
  by rewrite splitlines_text_with.
Qed.

Lemma input_line_endings_witness :
  let w := {| files := {[ "in.txt" := text_with crlf ["P12345"; ""]
                                      +:+ "Q9Y6K9" ]};
              trace := [] |} in
  read_lines "in.txt" w
  = (Return (["P12345"; ""]
             ++ (if String.eqb "Q9Y6K9" "" then [] else ["Q9Y6K9"])), w).
Proof.
  intros w.
  apply (input_line_endings "in.txt" crlf "Q9Y6K9" ["P12345"; ""] w);
    [right; left|repeat constructor|reflexivity|reflexivity].
Defined.

(** ** Bioservices without any mapping *)

Lemma concat_empty_rows (query_dbs : list string) :
  concat ((λ _ : string, Pandas.json_normalize []) <$> query_dbs) = [].
Proof. induction query_dbs as [|db query_dbs IH]; [done|]. exact IH. Qed.

(** X22: when bioservices maps nothing for any configured database (or no
    database is configured), [map_refseqids_bioservices] queries every
    database and then ends with KeyError for the accession column: the
    output file is neither created nor changed. *)
Theorem bioservices_all_empty (svc : Service)
    (input_file output_file text : string) (query_dbs : list string)
    (return_full : bool) (w : World) :
  let lines := Py.splitlines (Py.universal_newlines text) in
  let query := Py.join "," (Py.slice_to 100000 lines) in
  files w !! input_file = Some text →
  (∀ db, db ∈ query_dbs →
         mapping_answer svc db "UniProtKB" query = Some []) →
  map_refseqids_bioservices svc input_file output_file query_dbs
    return_full w
  = (Raise (KeyError "to.primaryAccession"),
     logged w ((λ db, Mapping db "UniProtKB" query) <$> query_dbs)).
Proof.
  intros lines query Hfile Hempty. unfold map_refseqids_bioservices.
  rewrite bind_run, (read_lines_file _ text) by done. fold lines.
  rewrite capped_slice, bind_run.
  rewrite (bioservices_for_rows svc _ (λ _, []) query_dbs 0 Pandas.empty w)
    by done.
  rewrite concat_empty_rows. by rewrite bind_run.
Qed.

Lemma bioservices_all_empty_witness :
  let svc := scenario_service always scenario_rows no_rows in
  let lines :=
    Py.splitlines (Py.universal_newlines (lines_text scenario_lines)) in
  let query := Py.join "," (Py.slice_to 100000 lines) in
  map_refseqids_bioservices svc "in.txt" "out.txt" DEFAULT_DBS false
    scenario_world
  = (Raise (KeyError "to.primaryAccession"),
     logged scenario_world
       ((λ db, Mapping db "UniProtKB" query) <$> DEFAULT_DBS)).
Proof.
  intros svc lines query.
  apply (bioservices_all_empty svc "in.txt" "out.txt"
           (lines_text scenario_lines) DEFAULT_DBS false scenario_world);
    [reflexivity|]. intros db _. reflexivity.
Defined.

(** ** The exceptions of a run *)












